(** * react-ui-walkthrough: the TutorialProvider component

    A shallow embedding of [src/lib/TutorialProvider.tsx]: the step
    navigation handlers ([handleNext], [handleClose]), the tooltip
    placement computation ([updateTooltipPosition]) and what the component
    renders ([TutorialProvider], [Tooltip]).

    Conventions of the embedding.
    - A JavaScript number that carries a length in pixels is an exact
      rational ([Q]); equality of such numbers is [==].  [NaN], the
      infinities and rounding are outside the model.  Where they matter
      (the clamp, the addition of the offsets) the placement arithmetic
      is embedded a second time, on binary64 floats, in [Double].
    - [window.innerWidth], [window.innerHeight], [offsetWidth] and
      [offsetHeight] are non-negative integers in the DOM, hence [N].
    - The two [useState] cells and the registration of the resize
      listener form the record [State]; a handler is a function on it.
    - An access [x.f] on [undefined] raises [TypeError]; code that can
      raise returns a [result].
    - A [CSSProperties] object is a finite map from property names to
      values, and object spread is a right-biased merge. *)

From Stdlib Require Import ZArith QArith Qminmax Lia.
From Stdlib Require Import Lqa.
From Stdlib Require Import Floats SpecFloat.
From stdpp Require Import gmap strings list.

Local Open Scope Z_scope.

(** ** Data model *)

Module VerticalPosition.
Inductive t := Top | Bottom | Middle.
End VerticalPosition.

Module HorizontalPosition.
Inductive t := Left | Right | Center.
End HorizontalPosition.

(** The value of a style property: a string, a plain number, or the
    template string [`${q}px`] of a number [q]. *)
Inductive CssValue :=
| CssStr (s : string)
| CssNum (n : Z)
| CssPx (q : Q).

Abbreviation CSSProperties := (gmap string CssValue).

(** [`${q}px`] depends on the value of [q] only, not on the fraction that
    denotes it. *)
Definition px (q : Q) : CssValue := CssPx (Qred q).

Record Step := {
  elementId : string;
  text : string;
  verticalPosition : option VerticalPosition.t;
  horizontalPosition : option HorizontalPosition.t;
  verticalOffset : option Q;
  horizontalOffset : option Q;
  tooltipStyle : option CSSProperties;
}.

(** [{...a, ...b}] where [b] may be [undefined]. *)
Definition spread (a : CSSProperties) (b : option CSSProperties) : CSSProperties :=
  match b with
  | Some b => b ∪ a
  | None => a
  end.

(** [xs[i]] for a number [i]: [undefined] outside [0 .. xs.length - 1]. *)
Definition at_index {A : Type} (xs : list A) (i : Z) : option A :=
  if i <? 0 then None else xs !! Z.to_nat i.

(** [xs.length] *)
Definition length_of {A : Type} (xs : list A) : Z := Z.of_nat (length xs).

Definition defaultTooltipStyle : CSSProperties :=
  list_to_map
    [ ("transition", CssStr "opacity 1s");
      ("position", CssStr "absolute");
      ("maxWidth", CssStr "300px");
      ("top", CssNum 0);
      ("left", CssNum 0);
      ("backgroundColor", CssStr "#212121");
      ("fontSize", CssStr "0.8rem");
      ("color", CssStr "#f5f5f5");
      ("padding", CssStr "0.5rem");
      ("zIndex", CssNum 1001);
      ("boxShadow", CssStr "0px 4px 8px rgba(0, 0, 0, 0.8)");
      ("borderRadius", CssStr "2px") ].

Definition defaultButtonStyle : CSSProperties :=
  list_to_map
    [ ("backgroundColor", CssStr "#212121");
      ("color", CssStr "#f5f5f5");
      ("border", CssStr "1px solid #f5f5f5");
      ("padding", CssStr "0.5rem");
      ("borderRadius", CssStr "2px");
      ("cursor", CssStr "pointer") ].

Definition defaultDimStyle : CSSProperties :=
  list_to_map
    [ ("backgroundColor", CssStr "rgba(0, 0, 0, 0.3)");
      ("zIndex", CssNum 1000) ].

(** The six properties that pin the dimming layer to the viewport. *)
Definition fixedFullScreen : CSSProperties :=
  list_to_map
    [ ("position", CssStr "fixed");
      ("margin", CssNum 0);
      ("padding", CssNum 0);
      ("top", CssNum 0);
      ("left", CssNum 0);
      ("right", CssNum 0);
      ("bottom", CssNum 0) ].

Definition defaultBodyDimStyle : CSSProperties :=
  spread defaultDimStyle (Some fixedFullScreen).

(** ** The host environment: document and window *)

(** What the component reads from a DOM element:
    [getBoundingClientRect().top/left] and [offsetHeight/offsetWidth]. *)
Record Element := {
  rect_top : Q;
  rect_left : Q;
  offsetHeight : N;
  offsetWidth : N;
}.

Record Host := {
  getElementById : string -> option Element;
  pageYOffset : Q;
  pageXOffset : Q;
  documentElement_scrollTop : Q;
  documentElement_scrollLeft : Q;
  body_scrollTop : Q;
  body_scrollLeft : Q;
  innerWidth : N;
  innerHeight : N;
}.

Definition NtoQ (n : N) : Q := inject_Z (Z.of_N n).

(** [a || b] on numbers: [a] when it is truthy (not zero), else [b]. *)
Definition jsOr (a b : Q) : Q := if Qeq_bool a 0 then b else a.

(** ** Tooltip placement (the body of updateTooltipPosition) *)

Local Open Scope Q_scope.

Definition scrollTop (w : Host) : Q :=
  jsOr (jsOr (jsOr (pageYOffset w) (documentElement_scrollTop w)) (body_scrollTop w)) 0.

Definition scrollLeft (w : Host) : Q :=
  jsOr (jsOr (jsOr (pageXOffset w) (documentElement_scrollLeft w)) (body_scrollLeft w)) 0.

(** [x ?? 0] *)
Definition orZero (x : option Q) : Q :=
  match x with Some q => q | None => 0 end.

(** The [switch (step.verticalPosition)]. *)
Definition adjustVertical (vp : option VerticalPosition.t) (top h : Q) : Q :=
  match vp with
  | Some VerticalPosition.Top => top - h
  | Some VerticalPosition.Bottom => top + h
  | Some VerticalPosition.Middle | None => top + h / 2
  end.

(** The [switch (step.horizontalPosition)]. *)
Definition adjustHorizontal (hp : option HorizontalPosition.t) (left w : Q) : Q :=
  match hp with
  | Some HorizontalPosition.Left => left - w
  | Some HorizontalPosition.Right => left + w
  | Some HorizontalPosition.Center | None => left + w / 2
  end.

Definition tooltipWidth : Q := 300.
Definition centerOffset : Q := tooltipWidth / 2.

(** [if (step.horizontalPosition === 'center') left -= centerOffset] *)
Definition alignCenter (hp : option HorizontalPosition.t) (left : Q) : Q :=
  match hp with
  | Some HorizontalPosition.Center => left - centerOffset
  | _ => left
  end.

(** The value of [top] when the clamping statement is reached. *)
Definition preClampTop (step : Step) (target : Element) (w : Host) : Q :=
  adjustVertical (verticalPosition step)
                 (rect_top target + scrollTop w) (NtoQ (offsetHeight target))
  + orZero (verticalOffset step).

(** The value of [left] when the clamping statement is reached. *)
Definition preClampLeft (step : Step) (target : Element) (w : Host) : Q :=
  alignCenter (horizontalPosition step)
    (adjustHorizontal (horizontalPosition step)
                      (rect_left target + scrollLeft w) (NtoQ (offsetWidth target))
     + orZero (horizontalOffset step)).

(** [Math.max(0, Math.min(left, window.innerWidth - tooltipWidth))] *)
Definition clampLeft (w : Host) (left : Q) : Q :=
  Qmax 0 (Qmin left (NtoQ (innerWidth w) - tooltipWidth)).

(** [Math.max(0, Math.min(top, window.innerHeight))] *)
Definition clampTop (w : Host) (top : Q) : Q :=
  Qmax 0 (Qmin top (NtoQ (innerHeight w))).

Record Placement := { p_top : Q; p_left : Q }.

Definition computePlacement (step : Step) (target : Element) (w : Host) : Placement :=
  {| p_top := clampTop w (preClampTop step target w);
     p_left := clampLeft w (preClampLeft step target w) |}.

Local Close Scope Q_scope.

(** ** Component state and the result of code that can raise *)

Inductive Exn := TypeError.

Inductive result (A : Type) :=
| Ok (a : A)
| Throw (e : Exn).
Arguments Ok {A} a.
Arguments Throw {A} e.

Definition bind {A B : Type} (r : result A) (k : A -> result B) : result B :=
  match r with
  | Ok a => k a
  | Throw e => Throw e
  end.

Notation "'letr' x ':=' r 'in' k" := (bind r (fun x => k))
  (at level 10, x name, r at level 100, k at level 200).

(** The two [useState] cells of [TutorialProvider], and whether the
    [updateTooltipPosition] of the current render is registered as a
    resize listener on [window]. *)
Record State := {
  activeStep : Z;
  curTooltipStyle : CSSProperties;
  resizeListener : bool;
}.

Definition setActiveStep (i : Z) (st : State) : State :=
  {| activeStep := i;
     curTooltipStyle := curTooltipStyle st;
     resizeListener := resizeListener st |}.

Definition setCurrentTooltipStyle (s : CSSProperties) (st : State) : State :=
  {| activeStep := activeStep st;
     curTooltipStyle := s;
     resizeListener := resizeListener st |}.

Definition setResizeListener (b : bool) (st : State) : State :=
  {| activeStep := activeStep st;
     curTooltipStyle := curTooltipStyle st;
     resizeListener := b |}.

(** [step?.tooltipStyle] *)
Definition tooltipStyleOf (step : option Step) : option CSSProperties :=
  match step with
  | Some s => tooltipStyle s
  | None => None
  end.

(** The initial values of the two [useState] calls; [showTooltip] is an
    optional boolean, and [undefined] is falsy. *)
Definition initialState (steps : list Step) (showTooltip : option bool) : State :=
  let activeStep := if default false showTooltip then 0 else -1 in
  let step := at_index steps activeStep in
  {| activeStep := activeStep;
     curTooltipStyle := spread defaultTooltipStyle (tooltipStyleOf step);
     resizeListener := false |}.

(** ** updateTooltipPosition *)

Definition positioned (p : Placement) (prevStyle : CSSProperties) : CSSProperties :=
  <["left" := px (p_left p)]>
    (<["top" := px (p_top p)]>
       (<["position" := CssStr "absolute"]> prevStyle)).

Definition updateTooltipPosition (w : Host) (steps : list Step) (st : State)
  : result State :=
  if activeStep st <? 0 then Ok st
  else
    match at_index steps (activeStep st) with
    | None => Throw TypeError
    | Some step =>
        match getElementById w (elementId step) with
        | None => Ok st
        | Some target =>
            let p := computePlacement step target w in
            Ok (setCurrentTooltipStyle (positioned p (curTooltipStyle st)) st)
        end
    end.

(** ** Navigation handlers *)

Definition handleClose (st : State) : State :=
  setResizeListener false (setActiveStep (-1) st).

(** [handleNext] as created by a render in which the active step was
    [renderedStep]: the test reads that captured value, the updater
    passed to [setActiveStep] reads the state it is applied to. *)
Definition handleNext (steps : list Step) (renderedStep : Z) (st : State) : State :=
  if renderedStep =? length_of steps - 1 then handleClose st
  else
    let prevStep := activeStep st in
    setActiveStep (prevStep + 1)
      (setCurrentTooltipStyle
         (spread defaultTooltipStyle (tooltipStyleOf (at_index steps (prevStep + 1))))
         st).

(** The handlers the current render hands out, applied to the state that
    render displays: the spec's [advance()] and [close()]. *)
Definition advance (steps : list Step) (st : State) : State :=
  handleNext steps (activeStep st) st.

Definition close (st : State) : State := handleClose st.

(** The [useEffect]: recompute the placement, then listen for resizes.
    Its cleanup removes the listener. *)
Definition effect (w : Host) (steps : list Step) (st : State) : result State :=
  letr st' := updateTooltipPosition w steps st in
  Ok (setResizeListener true st').

Definition cleanup (st : State) : State := setResizeListener false st.

(** A resize event runs the listener when one is registered. *)
Definition onResize (w : Host) (steps : list Step) (st : State) : result State :=
  if resizeListener st then updateTooltipPosition w steps st else Ok st.

(** ** Rendering *)

Inductive Handler := HandleClose | HandleNext.

Record TooltipProps := {
  tp_text : string;
  tp_style : CSSProperties;
  onClose : Handler;
  onNext : option Handler;
}.

Record Button := {
  label : string;
  onClick : Handler;
  buttonStyle : CSSProperties;
}.

Record TooltipView := {
  tv_style : CSSProperties;
  tv_text : string;
  buttons : list Button;
}.

(** The [Tooltip] component: the Close button, then
    [{onNext && <button ...>Next</button>}]. *)
Definition Tooltip (props : TooltipProps) : TooltipView :=
  {| tv_style := tp_style props;
     tv_text := tp_text props;
     buttons :=
       {| label := "Close";
          onClick := onClose props;
          buttonStyle := spread defaultButtonStyle
                                (Some {[ "marginRight" := CssStr "0.5rem" ]}) |}
       :: match onNext props with
          | Some h => [ {| label := "Next"; onClick := h;
                           buttonStyle := defaultButtonStyle |} ]
          | None => []
          end |}.

(** What [TutorialProvider] returns; the children are rendered in both
    cases and are left out. *)
Inductive View :=
| Fragment
| Provider (ctx_activeStep : Z) (ctx_steps : list Step)
           (tooltip : TooltipView) (dim : CSSProperties).

(** [activeStep !== steps.length - 1 ? handleNext : null] *)
Definition onNextProp (steps : list Step) (activeStep : Z) : option Handler :=
  if activeStep =? length_of steps - 1 then None else Some HandleNext.

(** The style of the dimming [div]. *)
Definition dimOf (dimStyle : option CSSProperties) : CSSProperties :=
  match dimStyle with
  | Some d => spread d (Some fixedFullScreen)
  | None => defaultBodyDimStyle
  end.

(** The render of [TutorialProvider].  [curTooltipStyle] is an object,
    hence truthy: the [Tooltip] is always part of the active view.  The
    access [steps[activeStep].text] raises when the step is [undefined]. *)
Definition render (steps : list Step) (dimStyle : option CSSProperties) (st : State)
  : result View :=
  if activeStep st <? 0 then Ok Fragment
  else
    match at_index steps (activeStep st) with
    | None => Throw TypeError
    | Some step =>
        Ok (Provider (activeStep st) steps
              (Tooltip {| tp_text := text step;
                          tp_style := curTooltipStyle st;
                          onClose := HandleClose;
                          onNext := onNextProp steps (activeStep st) |})
              (dimOf dimStyle))
    end.

(** Mounting the component: first render, then the effect. *)
Definition mount (w : Host) (steps : list Step) (dimStyle : option CSSProperties)
    (showTooltip : option bool) : result (View * State) :=
  let st := initialState steps showTooltip in
  letr v := render steps dimStyle st in
  letr st' := effect w steps st in
  Ok (v, st').

(** The range the spec gives for the active index. *)
Definition inRange (steps : list Step) (st : State) : Prop :=
  -1 <= activeStep st < length_of steps.

(** ** Example data *)

(** The steps of the README's example. *)
Definition stepA1 : Step :=
  {| elementId := "a1";
     text := "Lorem ipsum dolor sit amet, consectetur adipisicing elit.";
     verticalPosition := Some VerticalPosition.Bottom;
     horizontalPosition := Some HorizontalPosition.Left;
     verticalOffset := None;
     horizontalOffset := None;
     tooltipStyle := Some {[ "color" := CssStr "yellow" ]} |}.

Definition stepA2 : Step :=
  {| elementId := "a2";
     text := "Lorem ipsum dolor sit amet, consectetur adipisicing elit.";
     verticalPosition := Some VerticalPosition.Middle;
     horizontalPosition := Some HorizontalPosition.Center;
     verticalOffset := None;
     horizontalOffset := None;
     tooltipStyle := None |}.

Definition stepA3 : Step :=
  {| elementId := "a3";
     text := "Lorem ipsum dolor sit amet, consectetur adipisicing elit.";
     verticalPosition := Some VerticalPosition.Top;
     horizontalPosition := Some HorizontalPosition.Right;
     verticalOffset := None;
     horizontalOffset := None;
     tooltipStyle := None |}.

Definition TutorialSteps : list Step := [stepA1; stepA2; stepA3].

(** The component displaying step [i] of [steps], after its effect ran. *)
Definition showing (i : Z) : State :=
  {| activeStep := i;
     curTooltipStyle := defaultTooltipStyle;
     resizeListener := true |}.

(** The inactive component, as [TutorialProvider] leaves it after its
    effect ran: nothing shown, the (idle) resize listener registered. *)
Definition inactive : State := showing (-1).

(** The target box of the spec's anchor example. *)
Definition exampleTarget : Element :=
  {| rect_top := 100; rect_left := 50; offsetHeight := 20; offsetWidth := 40 |}.

(** A window of the given size, scrolled to the origin, over a document
    with the given elements. *)
Definition unscrolled (doc : string -> option Element) (width height : N) : Host :=
  {| getElementById := doc;
     pageYOffset := 0; pageXOffset := 0;
     documentElement_scrollTop := 0; documentElement_scrollLeft := 0;
     body_scrollTop := 0; body_scrollLeft := 0;
     innerWidth := width; innerHeight := height |}.

(** A document whose only element with an id is [el], under [id]. *)
Definition onlyElement (id : string) (el : Element) : string -> option Element :=
  fun id' => if String.eqb id' id then Some el else None.

Definition emptyDocument : string -> option Element := fun _ => None.

(** An unscrolled 800x600 window over a page on which only the element
    [a1] exists, with the box of the example target. *)
Definition pageWithA1 : Host :=
  unscrolled (onlyElement "a1" exampleTarget) 800 600.

(** An offset of zero, written out ([0]) or left out ([undefined]). *)
Definition zeroOffset (written : bool) : option Q :=
  if written then Some 0%Q else None.

(** [{...step, verticalOffset: o}] and [{...step, horizontalOffset: o}] *)
Definition withVerticalOffset (o : option Q) (step : Step) : Step :=
  {| elementId := elementId step; text := text step;
     verticalPosition := verticalPosition step;
     horizontalPosition := horizontalPosition step;
     verticalOffset := o;
     horizontalOffset := horizontalOffset step;
     tooltipStyle := tooltipStyle step |}.

Definition withHorizontalOffset (o : option Q) (step : Step) : Step :=
  {| elementId := elementId step; text := text step;
     verticalPosition := verticalPosition step;
     horizontalPosition := horizontalPosition step;
     verticalOffset := verticalOffset step;
     horizontalOffset := o;
     tooltipStyle := tooltipStyle step |}.

(** [{...step, verticalPosition: v}] and [{...step, horizontalPosition: h}] *)
Definition withVerticalPosition (v : option VerticalPosition.t) (step : Step) : Step :=
  {| elementId := elementId step; text := text step;
     verticalPosition := v;
     horizontalPosition := horizontalPosition step;
     verticalOffset := verticalOffset step;
     horizontalOffset := horizontalOffset step;
     tooltipStyle := tooltipStyle step |}.

Definition withHorizontalPosition (h : option HorizontalPosition.t) (step : Step) : Step :=
  {| elementId := elementId step; text := text step;
     verticalPosition := verticalPosition step;
     horizontalPosition := h;
     verticalOffset := verticalOffset step;
     horizontalOffset := horizontalOffset step;
     tooltipStyle := tooltipStyle step |}.

(** The step [step] with the given anchors and both offsets zero
    (written out or left out, as [vw] and [hw] say). *)
Definition anchored (v : option VerticalPosition.t) (h : option HorizontalPosition.t)
    (vw hw : bool) (step : Step) : Step :=
  withVerticalPosition v
    (withHorizontalPosition h
       (withVerticalOffset (zeroOffset vw)
          (withHorizontalOffset (zeroOffset hw) step))).

(** The labels of the buttons a tooltip shows. *)
Definition labels (v : TooltipView) : list string := map label (buttons v).

(** ** The event loop *)

(** What a click on a button of the tooltip runs. *)
Definition handlerOf (h : Handler) (steps : list Step) (st : State) : State :=
  match h with
  | HandleClose => handleClose st
  | HandleNext => advance steps st
  end.

(** The [onClick] handlers of the buttons on screen. *)
Definition offered (steps : list Step) (dimStyle : option CSSProperties) (st : State)
  : list Handler :=
  match render steps dimStyle st with
  | Ok (Provider _ _ tooltip _) => map onClick (buttons tooltip)
  | _ => []
  end.

(** What React does once a handler has turned state [before] into
    [after]: render; and, when [activeStep] changed, so that [useCallback]
    made a new [updateTooltipPosition], clean the effect up and run it
    again. *)
Definition commit (w : Host) (steps : list Step) (dimStyle : option CSSProperties)
    (before after : State) : result State :=
  letr _v := render steps dimStyle after in
  if activeStep before =? activeStep after then Ok after
  else effect w steps (cleanup after).

(** One event of the running component: a click on a button that is on
    screen, or a resize of the window. *)
Inductive ui_step (w : Host) (steps : list Step) (dimStyle : option CSSProperties)
  : State -> State -> Prop :=
| ui_click (h : Handler) (st st' : State) :
    h ∈ offered steps dimStyle st ->
    commit w steps dimStyle st (handlerOf h steps st) = Ok st' ->
    ui_step w steps dimStyle st st'
| ui_resize (st st' : State) :
    onResize w steps st = Ok st' ->
    ui_step w steps dimStyle st st'.

(** The context value a descendant reads with [useContext]: what the
    [Provider] carries, [undefined] when there is none. *)
Definition contextOf (v : View) : option (Z * list Step) :=
  match v with
  | Fragment => None
  | Provider a s _ _ => Some (a, s)
  end.

(** The first of the three scroll sources that is not zero, if any. *)
Definition firstNonZero (a b c : Q) : Q :=
  if Qeq_bool a 0 then (if Qeq_bool b 0 then c else b) else a.

(** A window at a given scroll position, the other fields as in [w]. *)
Definition scrolledTo (y x : Q) (w : Host) : Host :=
  {| getElementById := getElementById w;
     pageYOffset := y; pageXOffset := x;
     documentElement_scrollTop := documentElement_scrollTop w;
     documentElement_scrollLeft := documentElement_scrollLeft w;
     body_scrollTop := body_scrollTop w;
     body_scrollLeft := body_scrollLeft w;
     innerWidth := innerWidth w; innerHeight := innerHeight w |}.

(** An element moved by [(dy, dx)] in the viewport. *)
Definition movedBy (dy dx : Q) (el : Element) : Element :=
  {| rect_top := (rect_top el + dy)%Q; rect_left := (rect_left el + dx)%Q;
     offsetHeight := offsetHeight el; offsetWidth := offsetWidth el |}.

(** A page on which every step of the README's example has its element. *)
Definition pageWithAll : Host :=
  unscrolled (fun id => if String.eqb id "a1" then Some exampleTarget
                        else if String.eqb id "a2" then Some (movedBy 200 300 exampleTarget)
                        else if String.eqb id "a3" then Some (movedBy 400 700 exampleTarget)
                        else None) 800 600.

(** Step [a1] on screen, placed by its target on [pageWithAll]. *)
Definition placedA1 : State :=
  setCurrentTooltipStyle
    (positioned (computePlacement stepA1 exampleTarget pageWithAll)
                (spread defaultTooltipStyle (tooltipStyle stepA1)))
    (showing 0).

(** Step [a1] on screen before the placement update. *)
Definition unplacedA1 : State :=
  setCurrentTooltipStyle (spread defaultTooltipStyle (tooltipStyle stepA1)) (showing 0).

(** One event of the running component in whatever window it finds at
    that moment: between two events the window may have been resized or
    scrolled and the document may have changed. *)
Definition ui_event (steps : list Step) (dimStyle : option CSSProperties)
    (st st' : State) : Prop :=
  exists w : Host, ui_step w steps dimStyle st st'.

(** ** The placement arithmetic on IEEE doubles

    A JavaScript number is a binary64 float.  The definitions above
    compute with exact rationals, which agrees with the program as long
    as no operation rounds and no value is [NaN] or infinite.  [Double]
    embeds the same statements of [updateTooltipPosition] (lines 123 to
    170) on binary64 values, with the rounding of [+], [-] and [/] and
    with [NaN] as JavaScript has them; it keeps the names of the exact
    definitions. *)

Module Double.
Local Open Scope float_scope.

(** The fields of a step that the placement reads. *)
Record Step := {
  verticalPosition : option VerticalPosition.t;
  horizontalPosition : option HorizontalPosition.t;
  verticalOffset : option float;
  horizontalOffset : option float;
}.

Record Element := {
  rect_top : float;
  rect_left : float;
  offsetHeight : float;
  offsetWidth : float;
}.

Record Window := {
  pageYOffset : float;
  pageXOffset : float;
  documentElement_scrollTop : float;
  documentElement_scrollLeft : float;
  body_scrollTop : float;
  body_scrollLeft : float;
  innerWidth : float;
  innerHeight : float;
}.

(** [a || b] on numbers: [0], [-0] and [NaN] are falsy. *)
Definition jsOr (a b : float) : float :=
  if orb (a =? 0) (is_nan a) then b else a.

Definition scrollTop (w : Window) : float :=
  jsOr (jsOr (jsOr (pageYOffset w) (documentElement_scrollTop w)) (body_scrollTop w)) 0.

Definition scrollLeft (w : Window) : float :=
  jsOr (jsOr (jsOr (pageXOffset w) (documentElement_scrollLeft w)) (body_scrollLeft w)) 0.

(** [x ?? 0]: only [undefined] is replaced, [NaN] is kept. *)
Definition orZero (x : option float) : float :=
  match x with Some f => f | None => 0 end.

Definition adjustVertical (vp : option VerticalPosition.t) (top h : float) : float :=
  match vp with
  | Some VerticalPosition.Top => top - h
  | Some VerticalPosition.Bottom => top + h
  | Some VerticalPosition.Middle | None => top + h / 2
  end.

Definition adjustHorizontal (hp : option HorizontalPosition.t) (left w : float) : float :=
  match hp with
  | Some HorizontalPosition.Left => left - w
  | Some HorizontalPosition.Right => left + w
  | Some HorizontalPosition.Center | None => left + w / 2
  end.

Definition tooltipWidth : float := 300.
Definition centerOffset : float := tooltipWidth / 2.

Definition alignCenter (hp : option HorizontalPosition.t) (left : float) : float :=
  match hp with
  | Some HorizontalPosition.Center => left - centerOffset
  | _ => left
  end.

(** [top] and [left] after the anchor [switch], before the offset. *)
Definition anchoredTop (step : Step) (target : Element) (w : Window) : float :=
  adjustVertical (verticalPosition step)
                 (rect_top target + scrollTop w) (offsetHeight target).

Definition anchoredLeft (step : Step) (target : Element) (w : Window) : float :=
  adjustHorizontal (horizontalPosition step)
                   (rect_left target + scrollLeft w) (offsetWidth target).

(** [top] and [left] when the clamping statements are reached. *)
Definition preClampTop (step : Step) (target : Element) (w : Window) : float :=
  anchoredTop step target w + orZero (verticalOffset step).

Definition preClampLeft (step : Step) (target : Element) (w : Window) : float :=
  alignCenter (horizontalPosition step)
              (anchoredLeft step target w + orZero (horizontalOffset step)).

(** [Math.max] and [Math.min] of two numbers: [NaN] if either is, and
    [-0] counts as smaller than [+0]. *)
Definition mathMax (a b : float) : float :=
  if orb (is_nan a) (is_nan b) then nan
  else if a <? b then b
  else if b <? a then a
  else match classify a with NZero => b | _ => a end.

Definition mathMin (a b : float) : float :=
  if orb (is_nan a) (is_nan b) then nan
  else if a <? b then a
  else if b <? a then b
  else match classify a with NZero => a | _ => b end.

Definition clampLeft (w : Window) (left : float) : float :=
  mathMax 0 (mathMin left (innerWidth w - tooltipWidth)).

Definition clampTop (w : Window) (top : float) : float :=
  mathMax 0 (mathMin top (innerHeight w)).

Record Placement := { p_top : float; p_left : float }.

Definition computePlacement (step : Step) (target : Element) (w : Window) : Placement :=
  {| p_top := clampTop w (preClampTop step target w);
     p_left := clampLeft w (preClampLeft step target w) |}.

Definition withVerticalOffset (o : option float) (step : Step) : Step :=
  {| verticalPosition := verticalPosition step;
     horizontalPosition := horizontalPosition step;
     verticalOffset := o;
     horizontalOffset := horizontalOffset step |}.

Definition withHorizontalOffset (o : option float) (step : Step) : Step :=
  {| verticalPosition := verticalPosition step;
     horizontalPosition := horizontalPosition step;
     verticalOffset := verticalOffset step;
     horizontalOffset := o |}.

(** An offset of zero, written out or left out. *)
Definition zeroOffset (written : bool) : option float :=
  if written then Some 0 else None.

(** A step with the given anchors and no offsets. *)
Definition anchoredAt (v : option VerticalPosition.t) (h : option HorizontalPosition.t)
  : Step :=
  {| verticalPosition := v; horizontalPosition := h;
     verticalOffset := None; horizontalOffset := None |}.

(** A window of the given size, scrolled to the origin. *)
Definition unscrolled (width height : float) : Window :=
  {| pageYOffset := 0; pageXOffset := 0;
     documentElement_scrollTop := 0; documentElement_scrollLeft := 0;
     body_scrollTop := 0; body_scrollLeft := 0;
     innerWidth := width; innerHeight := height |}.

(** The target box of the spec's anchor example. *)
Definition exampleTarget : Element :=
  {| rect_top := 100; rect_left := 50; offsetHeight := 20; offsetWidth := 40 |}.

(** An element without extent whose box starts a tenth of a pixel from
    the top and from the left of the viewport ([0x1.999999999999ap-4] is
    the double that JavaScript writes [0.1]). *)
Definition tenthTarget : Element :=
  {| rect_top := 0x1.999999999999ap-4; rect_left := 0x1.999999999999ap-4;
     offsetHeight := 0; offsetWidth := 0 |}.

(** The double that JavaScript writes [0.2]. *)
Definition fifth : float := 0x1.999999999999ap-3.

(** A step anchored at [Center] (vertically at the default) with the
    given horizontal offset. *)
Definition centeredWith (o : option float) : Step :=
  {| verticalPosition := None;
     horizontalPosition := Some HorizontalPosition.Center;
     verticalOffset := None; horizontalOffset := o |}.

End Double.

(** * Properties *)

(** ** Navigation *)

Lemma length_of_nonneg {A : Type} (xs : list A) : 0 <= length_of xs.
Proof. unfold length_of. lia. Qed.

Lemma length_of_nil_iff {A : Type} (xs : list A) : length_of xs = 0 <-> xs = [].
Proof.
  unfold length_of. destruct xs as [|x xs]; simpl; split; intros H; try done; lia.
Qed.

Lemma at_index_Some {A : Type} (xs : list A) (i : Z) :
  0 <= i < length_of xs -> is_Some (at_index xs i).
Proof.
  unfold at_index, length_of. intros [Hlo Hhi].
  destruct (Z.ltb_spec i 0) as [Hneg|_]; [lia|].
  apply lookup_lt_is_Some. lia.
Qed.

Lemma at_index_None {A : Type} (xs : list A) (i : Z) :
  i < 0 \/ length_of xs <= i -> at_index xs i = None.
Proof.
  unfold at_index, length_of. intros H.
  destruct (Z.ltb_spec i 0) as [Hneg|Hpos]; [done|].
  apply lookup_ge_None. lia.
Qed.

Lemma handleClose_activeStep (st : State) : activeStep (handleClose st) = -1.
Proof. reflexivity. Qed.

Lemma handleNext_last (steps : list Step) (st : State) :
  activeStep st = length_of steps - 1 -> advance steps st = handleClose st.
Proof.
  intros H. unfold advance, handleNext. rewrite H, Z.eqb_refl. reflexivity.
Qed.

Lemma handleNext_not_last (steps : list Step) (st : State) :
  activeStep st <> length_of steps - 1 ->
  advance steps st =
    setActiveStep (activeStep st + 1)
      (setCurrentTooltipStyle
         (spread defaultTooltipStyle
                 (tooltipStyleOf (at_index steps (activeStep st + 1)))) st).
Proof.
  intros H. unfold advance, handleNext.
  destruct (Z.eqb_spec (activeStep st) (length_of steps - 1)); [contradiction|].
  reflexivity.
Qed.

(** C1. From the state that shows step [i] of a sequence of length [L],
    with [0 <= i <= L - 1], [handleNext] moves to step [i + 1] when
    [i < L - 1] and to the inactive state ([activeStep = -1]) when
    [i = L - 1]. *)
Theorem handleNext_from_active (steps : list Step) (st : State) (i : Z) :
  activeStep st = i ->
  0 <= i <= length_of steps - 1 ->
  (i < length_of steps - 1 -> activeStep (advance steps st) = i + 1) /\
  (i = length_of steps - 1 -> activeStep (advance steps st) = -1).
Proof.
  intros Hi Hrange. split; intros Hcase.
  - rewrite handleNext_not_last by lia. simpl. lia.
  - rewrite handleNext_last by lia. apply handleClose_activeStep.
Qed.

Lemma handleNext_from_active_witness :
  (activeStep (showing 1) = 1 /\ 0 <= 1 <= length_of TutorialSteps - 1 /\
   activeStep (advance TutorialSteps (showing 1)) = 1 + 1) /\
  (activeStep (showing 2) = 2 /\ 0 <= 2 <= length_of TutorialSteps - 1 /\
   activeStep (advance TutorialSteps (showing 2)) = -1).
Proof.
  split.
  - split; [reflexivity|]. split; [vm_compute; split; discriminate|].
    apply (handleNext_from_active TutorialSteps (showing 1) 1);
      [reflexivity | vm_compute; split; discriminate | reflexivity].
  - split; [reflexivity|]. split; [vm_compute; split; discriminate|].
    apply (handleNext_from_active TutorialSteps (showing 2) 2);
      [reflexivity | vm_compute; split; discriminate | reflexivity].
Defined.

Lemma handleClose_inactive (st : State) :
  activeStep st = -1 -> handleClose st = setResizeListener false st.
Proof. intros H. destruct st as [a s l]. simpl in H. subst a. reflexivity. Qed.

(** C2, as stated, fails: [handleNext] on the inactive state of a
    non-empty sequence activates step 0. *)
Lemma handleNext_inactive_activates :
  activeStep inactive = -1 /\
  activeStep (advance TutorialSteps inactive) = 0 /\
  advance TutorialSteps inactive <> inactive.
Proof.
  split; [reflexivity|]. split; [reflexivity|].
  intros H. apply (f_equal activeStep) in H. discriminate H.
Qed.

(** C2, amended.  On an inactive state ([activeStep = -1]):
    [handleClose] keeps [activeStep] at -1 and the tooltip style as it
    is, and only drops the resize listener; [handleNext] does the same as
    [handleClose] when the sequence is empty, and otherwise moves to step
    0, replacing the tooltip style by the default style merged with the
    override of step 0, the listener untouched.  Both handlers are total
    functions on states: neither can raise. *)
Theorem handlers_on_inactive (steps : list Step) (st : State) :
  activeStep st = -1 ->
  close st = setResizeListener false st /\
  (steps = [] -> advance steps st = close st) /\
  (steps <> [] ->
     advance steps st =
       setActiveStep 0
         (setCurrentTooltipStyle
            (spread defaultTooltipStyle (tooltipStyleOf (at_index steps 0))) st)).
Proof.
  intros Hin. split; [|split].
  - apply handleClose_inactive, Hin.
  - intros ->. apply handleNext_last. rewrite Hin. reflexivity.
  - intros Hne. rewrite handleNext_not_last.
    + rewrite Hin. reflexivity.
    + rewrite Hin. intros Heq.
      apply Hne, length_of_nil_iff. lia.
Qed.

Lemma handlers_on_inactive_witness :
  activeStep inactive = -1 /\
  close inactive = setResizeListener false inactive /\
  advance [] inactive = close inactive /\
  advance TutorialSteps inactive =
    setActiveStep 0
      (setCurrentTooltipStyle
         (spread defaultTooltipStyle (tooltipStyleOf (at_index TutorialSteps 0)))
         inactive).
Proof.
  split; [reflexivity|].
  destruct (handlers_on_inactive [] inactive eq_refl) as (Hc & He & _).
  destruct (handlers_on_inactive TutorialSteps inactive eq_refl) as (_ & _ & Hn).
  split; [exact Hc|]. split; [exact (He eq_refl)|].
  apply Hn. discriminate.
Defined.

(** The range is kept by both handlers, whatever the sequence. *)
Lemma handleClose_inRange (steps : list Step) (st : State) :
  inRange steps (close st).
Proof.
  unfold inRange, close. rewrite handleClose_activeStep.
  pose proof (length_of_nonneg steps). lia.
Qed.

Lemma handleNext_inRange (steps : list Step) (st : State) :
  inRange steps st -> inRange steps (advance steps st).
Proof.
  unfold inRange. intros Hr.
  destruct (Z.eq_dec (activeStep st) (length_of steps - 1)) as [Hlast|Hnot].
  - rewrite handleNext_last by exact Hlast. rewrite handleClose_activeStep.
    pose proof (length_of_nonneg steps). lia.
  - rewrite handleNext_not_last by exact Hnot. simpl. lia.
Qed.

(** At construction the range holds as soon as there is a step to show,
    or nothing is to be shown. *)
Lemma initialState_inRange (steps : list Step) (showTooltip : option bool) :
  steps <> [] \/ default false showTooltip = false ->
  inRange steps (initialState steps showTooltip).
Proof.
  unfold inRange, initialState. simpl. intros H.
  pose proof (length_of_nonneg steps) as Hlen.
  destruct (default false showTooltip) eqn:Hshow; [|lia].
  destruct H as [Hne|Hf]; [|discriminate].
  assert (length_of steps <> 0) by (intros H0; apply Hne, length_of_nil_iff, H0).
  lia.
Qed.

(** C3 at its failing input: constructed with an empty step array and
    [showTooltip = true], the component starts with [activeStep = 0],
    which is not in [[-1, 0)]. *)
Theorem initialState_empty_shown_out_of_range :
  activeStep (initialState [] (Some true)) = 0 /\
  length_of (@nil Step) = 0 /\
  ~ inRange [] (initialState [] (Some true)).
Proof.
  split; [reflexivity|]. split; [reflexivity|].
  unfold inRange. simpl. unfold length_of. simpl. lia.
Qed.

(** ** Placement *)

Section Placement.
Local Open Scope Q_scope.

Lemma NtoQ_nonneg (n : N) : 0 <= NtoQ n.
Proof. unfold NtoQ, Qle. simpl. lia. Qed.

Lemma clampTop_bounds (w : Host) (top : Q) :
  0 <= clampTop w top /\ clampTop w top <= NtoQ (innerHeight w).
Proof.
  unfold clampTop. split.
  - apply Q.le_max_l.
  - apply Q.max_lub; [apply NtoQ_nonneg | apply Q.le_min_r].
Qed.

Lemma clampLeft_bounds (w : Host) (left : Q) :
  0 <= clampLeft w left /\
  clampLeft w left <= Qmax 0 (NtoQ (innerWidth w) - tooltipWidth).
Proof.
  unfold clampLeft. split.
  - apply Q.le_max_l.
  - apply Q.max_le_compat_l, Q.le_min_r.
Qed.

(** A window at least as wide as the assumed tooltip: the upper bound
    is the one the spec names. *)
Lemma clampLeft_wide (w : Host) (left : Q) :
  tooltipWidth <= NtoQ (innerWidth w) ->
  clampLeft w left <= NtoQ (innerWidth w) - tooltipWidth.
Proof.
  intros Hw. unfold clampLeft. apply Q.max_lub; [|apply Q.le_min_r].
  unfold Qminus. rewrite <- (Qplus_opp_r tooltipWidth).
  apply Qplus_le_l, Hw.
Qed.

(** A narrower window: [left] is 0. *)
Lemma clampLeft_narrow (w : Host) (left : Q) :
  NtoQ (innerWidth w) < tooltipWidth -> clampLeft w left == 0.
Proof.
  intros Hw. unfold clampLeft. apply Q.max_l.
  eapply Qle_trans; [apply Q.le_min_r|].
  apply Qlt_le_weak. unfold Qminus.
  rewrite <- (Qplus_opp_r tooltipWidth). apply Qplus_lt_l, Hw.
Qed.
End Placement.

(** C4, as stated, fails in a window narrower than the assumed tooltip
    width: in a window 200 wide, step [a2] on the example target gets
    [left = 0], which is above [200 - 300]. *)
Lemma narrow_window_left_above_bound :
  (p_left (computePlacement stepA2 exampleTarget (unscrolled emptyDocument 200 600))
   == 0)%Q /\
  ~ (p_left (computePlacement stepA2 exampleTarget (unscrolled emptyDocument 200 600))
     <= NtoQ 200 - 300)%Q.
Proof.
  split; [reflexivity|].
  intros Hle. vm_compute in Hle. apply Hle. reflexivity.
Qed.

(** The bounds in exact arithmetic, where every value is a number: the
    placement has [0 <= top <= innerHeight] and
    [0 <= left <= max(0, innerWidth - 300)]; the bound on [left] is
    [innerWidth - 300] in a window at least 300 wide, and 0 in a
    narrower one.  [double_placement_bounds] below has them on doubles. *)
Theorem computePlacement_bounds (step : Step) (target : Element) (w : Host) :
  let p := computePlacement step target w in
  (0 <= p_top p)%Q /\ (p_top p <= NtoQ (innerHeight w))%Q /\
  (0 <= p_left p)%Q /\ (p_left p <= Qmax 0 (NtoQ (innerWidth w) - 300))%Q.
Proof.
  simpl.
  destruct (clampTop_bounds w (preClampTop step target w)) as [Ht0 Ht1].
  destruct (clampLeft_bounds w (preClampLeft step target w)) as [Hl0 Hl1].
  repeat split; assumption.
Qed.

(** The vertical half of C5 holds: leaving [verticalPosition] out gives
    the very placement of [Middle]. *)
Lemma verticalPosition_default_Middle (step : Step) (target : Element) (w : Host) :
  computePlacement (withVerticalPosition None step) target w =
  computePlacement (withVerticalPosition (Some VerticalPosition.Middle) step) target w.
Proof. reflexivity. Qed.

(** Leaving [horizontalPosition] out adds half the target's width, as
    [Center] does, but skips the centering correction. *)
Lemma horizontalPosition_default_uncorrected (step : Step) (target : Element) (w : Host) :
  (preClampLeft (withHorizontalPosition None step) target w ==
   preClampLeft (withHorizontalPosition (Some HorizontalPosition.Center) step) target w
   + centerOffset)%Q.
Proof. unfold preClampLeft. simpl. ring. Qed.

(** C5 at its failing input: for the example target in an unscrolled
    800x600 window and no horizontal offset, a step without
    [horizontalPosition] is placed at [left = 70], the same step with
    [horizontalPosition = Center] at [left = 0]. *)
Theorem horizontalPosition_omitted_differs_from_Center
    (doc : string -> option Element) (step : Step) :
  (p_left (computePlacement
             (withHorizontalOffset None (withHorizontalPosition None step))
             exampleTarget (unscrolled doc 800 600))
   == 70)%Q /\
  (p_left (computePlacement
             (withHorizontalOffset None
                (withHorizontalPosition (Some HorizontalPosition.Center) step))
             exampleTarget (unscrolled doc 800 600))
   == 0)%Q.
Proof. split; reflexivity. Qed.

(** C6.  Target box [{top:100, left:50, width:40, height:20}], window
    800x600, no scroll, zero offsets, assumed width 300.  Whatever the
    other anchor: [Top] gives [top = 80], [Bottom] 120, [Middle] 110;
    [Left] gives [left = 10], [Right] 90, and [Center] reaches the clamp
    with [70 - 150] and leaves it with 0. *)
Theorem anchor_example (doc : string -> option Element) (step : Step) (vw hw : bool)
    (v : option VerticalPosition.t) (h : option HorizontalPosition.t) :
  let w := unscrolled doc 800 600 in
  let place v h := computePlacement (anchored v h vw hw step) exampleTarget w in
  (p_top (place (Some VerticalPosition.Top) h) == 80)%Q /\
  (p_top (place (Some VerticalPosition.Bottom) h) == 120)%Q /\
  (p_top (place (Some VerticalPosition.Middle) h) == 110)%Q /\
  (p_left (place v (Some HorizontalPosition.Left)) == 10)%Q /\
  (p_left (place v (Some HorizontalPosition.Right)) == 90)%Q /\
  (preClampLeft (anchored v (Some HorizontalPosition.Center) vw hw step) exampleTarget w
   == 70 - 150)%Q /\
  (p_left (place v (Some HorizontalPosition.Center)) == 0)%Q.
Proof.
  destruct vw, hw; repeat split; reflexivity.
Qed.

(** The offsets in exact arithmetic: with [verticalOffset = d] the value
    of [top] that reaches the clamp is that of the same step with
    [verticalOffset = 0] (or with none) plus [d], and likewise for
    [horizontalOffset] and [left].  On doubles the sums are rounded, see
    [double_offsets_added_after_anchor] below. *)
Theorem offsets_additive (step : Step) (target : Element) (w : Host) (d : Q) (written : bool) :
  (preClampTop (withVerticalOffset (Some d) step) target w ==
   preClampTop (withVerticalOffset (zeroOffset written) step) target w + d)%Q /\
  (preClampLeft (withHorizontalOffset (Some d) step) target w ==
   preClampLeft (withHorizontalOffset (zeroOffset written) step) target w + d)%Q.
Proof.
  unfold preClampTop, preClampLeft. simpl.
  destruct written; simpl; split.
  - ring.
  - destruct (horizontalPosition step) as [[]|]; simpl; ring.
  - ring.
  - destruct (horizontalPosition step) as [[]|]; simpl; ring.
Qed.

(** The placement is the clamp of these two values. *)
Lemma computePlacement_clamps (step : Step) (target : Element) (w : Host) :
  computePlacement step target w =
  {| p_top := clampTop w (preClampTop step target w);
     p_left := clampLeft w (preClampLeft step target w) |}.
Proof. reflexivity. Qed.

(** ** Missing elements and missing steps *)

Lemma updateTooltipPosition_inactive (w : Host) (steps : list Step) (st : State) :
  activeStep st < 0 -> updateTooltipPosition w steps st = Ok st.
Proof.
  intros H. unfold updateTooltipPosition.
  destruct (Z.ltb_spec (activeStep st) 0); [reflexivity | lia].
Qed.

Lemma updateTooltipPosition_active (w : Host) (steps : list Step) (st : State) :
  0 <= activeStep st ->
  updateTooltipPosition w steps st =
    match at_index steps (activeStep st) with
    | None => Throw TypeError
    | Some step =>
        match getElementById w (elementId step) with
        | None => Ok st
        | Some target =>
            Ok (setCurrentTooltipStyle
                  (positioned (computePlacement step target w) (curTooltipStyle st)) st)
        end
    end.
Proof.
  intros H. unfold updateTooltipPosition.
  destruct (Z.ltb_spec (activeStep st) 0); [lia | reflexivity].
Qed.

(** C8.  When the element of the current step is not in the document,
    [updateTooltipPosition] returns normally and leaves the whole state
    as it was: the tooltip style (hence the placement) and [activeStep].
    The same holds when the recomputation is triggered by a resize. *)
Theorem updateTooltipPosition_missing_element
    (w : Host) (steps : list Step) (st : State) (step : Step) :
  at_index steps (activeStep st) = Some step ->
  getElementById w (elementId step) = None ->
  updateTooltipPosition w steps st = Ok st /\
  onResize w steps st = Ok st.
Proof.
  intros Hstep Hmissing.
  assert (Hupd : updateTooltipPosition w steps st = Ok st).
  { unfold updateTooltipPosition.
    destruct (activeStep st <? 0); [reflexivity|].
    rewrite Hstep, Hmissing. reflexivity. }
  split; [exact Hupd|].
  unfold onResize. destruct (resizeListener st); [exact Hupd | reflexivity].
Qed.

Lemma updateTooltipPosition_missing_element_witness :
  at_index TutorialSteps (activeStep (showing 1)) = Some stepA2 /\
  getElementById pageWithA1 (elementId stepA2) = None /\
  updateTooltipPosition pageWithA1 TutorialSteps (showing 1) = Ok (showing 1) /\
  onResize pageWithA1 TutorialSteps (showing 1) = Ok (showing 1).
Proof.
  split; [reflexivity|]. split; [reflexivity|].
  apply (updateTooltipPosition_missing_element
           pageWithA1 TutorialSteps (showing 1) stepA2); reflexivity.
Defined.

(** With the element present, the style does get the new placement. *)
Lemma updateTooltipPosition_found
    (w : Host) (steps : list Step) (st : State) (step : Step) (target : Element) :
  at_index steps (activeStep st) = Some step ->
  getElementById w (elementId step) = Some target ->
  exists st',
    updateTooltipPosition w steps st = Ok st' /\
    activeStep st' = activeStep st /\
    curTooltipStyle st' !! "top" = Some (px (p_top (computePlacement step target w))) /\
    curTooltipStyle st' !! "left" = Some (px (p_left (computePlacement step target w))).
Proof.
  intros Hstep Hfound. eexists. split.
  - unfold updateTooltipPosition.
    destruct (activeStep st <? 0) eqn:Hneg.
    + unfold at_index in Hstep. rewrite Hneg in Hstep. discriminate.
    + rewrite Hstep, Hfound. reflexivity.
  - simpl. unfold positioned. split; [reflexivity|]. split.
    + rewrite lookup_insert_ne by discriminate. apply lookup_insert_eq.
    + apply lookup_insert_eq.
Qed.

(** Whenever [activeStep] is in the range of the steps, neither the
    placement update nor the render raises. *)
Lemma in_bounds_no_TypeError
    (w : Host) (steps : list Step) (dimStyle : option CSSProperties) (st : State) :
  inRange steps st ->
  updateTooltipPosition w steps st <> Throw TypeError /\
  render steps dimStyle st <> Throw TypeError.
Proof.
  unfold inRange. intros Hr.
  destruct (Z.ltb_spec (activeStep st) 0) as [Hneg|Hpos].
  - rewrite updateTooltipPosition_inactive by exact Hneg.
    unfold render. destruct (Z.ltb_spec (activeStep st) 0); [|lia].
    split; discriminate.
  - destruct (at_index_Some steps (activeStep st)) as [step Hstep]; [lia|].
    rewrite updateTooltipPosition_active by exact Hpos.
    unfold render. destruct (Z.ltb_spec (activeStep st) 0); [lia|].
    rewrite Hstep. split; [|discriminate].
    destruct (getElementById w (elementId step)); discriminate.
Qed.

(** C9 at its failing input: mounted with an empty step array and
    [showTooltip = true], the component has [activeStep = 0] while
    [steps[0]] is [undefined]; the render raises on [steps[0].text], and
    so would the placement update on [step.elementId]. *)
Theorem empty_steps_shown_raises (w : Host) (dimStyle : option CSSProperties) :
  activeStep (initialState [] (Some true)) = 0 /\
  at_index (@nil Step) 0 = None /\
  render [] dimStyle (initialState [] (Some true)) = Throw TypeError /\
  updateTooltipPosition w [] (initialState [] (Some true)) = Throw TypeError /\
  mount w [] dimStyle (Some true) = Throw TypeError.
Proof. repeat split; reflexivity. Qed.

(** ** The controls of the tooltip *)

Lemma onNextProp_spec (steps : list Step) (a : Z) :
  onNextProp steps a = Some HandleNext <-> a <> length_of steps - 1.
Proof.
  unfold onNextProp. destruct (Z.eqb_spec a (length_of steps - 1)); split; intros H.
  - discriminate.
  - contradiction.
  - assumption.
  - reflexivity.
Qed.

Lemma onNextProp_last (steps : list Step) :
  onNextProp steps (length_of steps - 1) = None.
Proof. unfold onNextProp. rewrite Z.eqb_refl. reflexivity. Qed.

Lemma Tooltip_labels (props : TooltipProps) :
  labels (Tooltip props) =
    match onNext props with
    | Some _ => ["Close"; "Next"]
    | None => ["Close"]
    end.
Proof. unfold labels, Tooltip. simpl. destruct (onNext props); reflexivity. Qed.

Lemma Tooltip_Next_iff (props : TooltipProps) :
  "Next" ∈ labels (Tooltip props) <-> onNext props <> None.
Proof.
  rewrite Tooltip_labels. destruct (onNext props) as [h|]; split; intros H.
  - discriminate.
  - set_solver.
  - apply list_elem_of_singleton in H. discriminate.
  - contradiction.
Qed.

Lemma render_active (steps : list Step) (dimStyle : option CSSProperties)
    (st : State) (step : Step) :
  at_index steps (activeStep st) = Some step ->
  render steps dimStyle st =
    Ok (Provider (activeStep st) steps
          (Tooltip {| tp_text := text step;
                      tp_style := curTooltipStyle st;
                      onClose := HandleClose;
                      onNext := onNextProp steps (activeStep st) |})
          (dimOf dimStyle)).
Proof.
  intros Hstep. unfold render.
  destruct (activeStep st <? 0) eqn:Hneg.
  - unfold at_index in Hstep. rewrite Hneg in Hstep. discriminate.
  - rewrite Hstep. reflexivity.
Qed.

(** C10.  While a step is shown, [TutorialProvider] renders a [Tooltip]
    with the step's text and [onClose = handleClose], whose [onNext] is
    [handleNext] exactly when [activeStep] is not [steps.length - 1] and
    [null] on the last step; a [Tooltip] has a Next button exactly when
    its [onNext] is not [null]; so the tooltip shows Close and Next on
    every step but the last, and Close alone on the last. *)
Theorem next_offered_on_non_final_steps
    (steps : list Step) (dimStyle : option CSSProperties) (st : State) (step : Step) :
  at_index steps (activeStep st) = Some step ->
  exists props : TooltipProps,
    render steps dimStyle st =
      Ok (Provider (activeStep st) steps (Tooltip props) (dimOf dimStyle)) /\
    tp_text props = text step /\
    onClose props = HandleClose /\
    (onNext props = Some HandleNext <-> activeStep st <> length_of steps - 1) /\
    (onNext props = None <-> activeStep st = length_of steps - 1) /\
    (forall p : TooltipProps, "Next" ∈ labels (Tooltip p) <-> onNext p <> None) /\
    labels (Tooltip props) =
      if activeStep st =? length_of steps - 1 then ["Close"] else ["Close"; "Next"].
Proof.
  intros Hstep. eexists. split; [apply render_active, Hstep|]. simpl.
  split; [reflexivity|]. split; [reflexivity|].
  split; [apply onNextProp_spec|]. split.
  - unfold onNextProp.
    destruct (Z.eqb_spec (activeStep st) (length_of steps - 1)); split; intros H;
      try done.
  - split; [apply Tooltip_Next_iff|].
    rewrite Tooltip_labels. simpl. unfold onNextProp.
    destruct (activeStep st =? length_of steps - 1); reflexivity.
Qed.

Lemma next_offered_on_non_final_steps_witness :
  (at_index TutorialSteps (activeStep (showing 2)) = Some stepA3) /\
  exists props : TooltipProps,
    render TutorialSteps None (showing 2) =
      Ok (Provider (activeStep (showing 2)) TutorialSteps (Tooltip props) (dimOf None)) /\
    tp_text props = text stepA3 /\
    onClose props = HandleClose /\
    (onNext props = Some HandleNext <->
       activeStep (showing 2) <> length_of TutorialSteps - 1) /\
    (onNext props = None <-> activeStep (showing 2) = length_of TutorialSteps - 1) /\
    (forall p : TooltipProps, "Next" ∈ labels (Tooltip p) <-> onNext p <> None) /\
    labels (Tooltip props) =
      if activeStep (showing 2) =? length_of TutorialSteps - 1
      then ["Close"] else ["Close"; "Next"].
Proof.
  split; [reflexivity|].
  apply (next_offered_on_non_final_steps TutorialSteps None (showing 2) stepA3).
  reflexivity.
Defined.

(** * Further properties *)

(** ** Runs of the navigation handlers *)

Lemma advance_iter_below (steps : list Step) (st : State) (k : nat) :
  activeStep st + Z.of_nat k <= length_of steps - 1 ->
  activeStep (Nat.iter k (advance steps) st) = activeStep st + Z.of_nat k.
Proof.
  induction k as [|k IH]; intros Hhi.
  - simpl. lia.
  - rewrite Nat.iter_succ, handleNext_not_last; rewrite IH by lia.
    + simpl. lia.
    + lia.
Qed.

(** A walkthrough of [L >= 1] steps that shows step 0: [k <= L - 1]
    calls of [handleNext] show step [k], and [L] calls end it. *)
Theorem advance_run (steps : list Step) (st : State) (k : nat) :
  activeStep st = 0 ->
  steps <> [] ->
  (k <= length steps - 1)%nat ->
  activeStep (Nat.iter k (advance steps) st) = Z.of_nat k /\
  activeStep (Nat.iter (length steps) (advance steps) st) = -1.
Proof.
  intros H0 Hne Hk.
  assert (Hlen : (1 <= length steps)%nat).
  { destruct steps; [contradiction | simpl; lia]. }
  split.
  - rewrite advance_iter_below; unfold length_of; lia.
  - assert (HL : length_of steps = Z.of_nat (length steps)) by reflexivity.
    destruct (length steps) as [|n]; [lia|].
    rewrite Nat.iter_succ, handleNext_last; [reflexivity|].
    rewrite advance_iter_below; lia.
Qed.

Lemma advance_run_witness :
  activeStep (showing 0) = 0 /\ TutorialSteps <> [] /\
  (2 <= length TutorialSteps - 1)%nat /\
  activeStep (Nat.iter 2 (advance TutorialSteps) (showing 0)) = Z.of_nat 2 /\
  activeStep (Nat.iter (length TutorialSteps) (advance TutorialSteps) (showing 0)) = -1.
Proof.
  split; [reflexivity|]. split; [discriminate|]. split; [simpl; lia|].
  apply (advance_run TutorialSteps (showing 0) 2);
    [reflexivity | discriminate | simpl; lia].
Defined.

(** As a function on states [handleNext] goes round: from any state in
    range, [L + 1] calls bring [activeStep] back to where it was. *)
Theorem advance_period (steps : list Step) (st : State) :
  inRange steps st ->
  activeStep (Nat.iter (S (length steps)) (advance steps) st) = activeStep st.
Proof.
  unfold inRange. intros Hr.
  assert (HL : length_of steps = Z.of_nat (length steps)) by reflexivity.
  (* up to the last step, one call to close, and up again from -1 *)
  set (up := Z.to_nat (length_of steps - 1 - activeStep st)).
  set (back := Z.to_nat (activeStep st + 1)).
  replace (S (length steps)) with (back + S up)%nat by (unfold up, back; lia).
  rewrite Nat.iter_add.
  assert (Hclosed : activeStep (Nat.iter (S up) (advance steps) st) = -1).
  { rewrite Nat.iter_succ, handleNext_last; [reflexivity|].
    rewrite advance_iter_below; unfold up; lia. }
  rewrite advance_iter_below; rewrite Hclosed; unfold back; lia.
Qed.

Lemma advance_period_witness :
  inRange TutorialSteps (showing 1) /\
  activeStep (Nat.iter (S (length TutorialSteps)) (advance TutorialSteps) (showing 1))
  = activeStep (showing 1).
Proof.
  assert (Hr : inRange TutorialSteps (showing 1)).
  { unfold inRange. vm_compute. split; [discriminate | reflexivity]. }
  split; [exact Hr|].
  apply (advance_period TutorialSteps (showing 1) Hr).
Defined.

(** ** When the component raises *)

(** Both the render and the placement update raise exactly when
    [activeStep] is at or beyond the end of the step array. *)
Theorem raises_iff_beyond_end
    (w : Host) (steps : list Step) (dimStyle : option CSSProperties) (st : State) :
  (render steps dimStyle st = Throw TypeError <-> length_of steps <= activeStep st) /\
  (updateTooltipPosition w steps st = Throw TypeError <->
     length_of steps <= activeStep st).
Proof.
  pose proof (length_of_nonneg steps) as Hlen.
  destruct (Z.ltb_spec (activeStep st) 0) as [Hneg|Hpos].
  - rewrite updateTooltipPosition_inactive by exact Hneg.
    unfold render. destruct (Z.ltb_spec (activeStep st) 0); [|lia].
    split; split; intros Hx; try discriminate; lia.
  - rewrite updateTooltipPosition_active by exact Hpos.
    unfold render. destruct (Z.ltb_spec (activeStep st) 0); [lia|].
    destruct (Z.lt_ge_cases (activeStep st) (length_of steps)) as [Hin|Hout].
    + destruct (at_index_Some steps (activeStep st)) as [step Hstep]; [lia|].
      rewrite Hstep.
      split; split; intros Hx; try lia; try discriminate.
      destruct (getElementById w (elementId step)); discriminate.
    + rewrite at_index_None by lia. split; split; intros _; try reflexivity; lia.
Qed.

Lemma updateTooltipPosition_frame
    (w : Host) (steps : list Step) (st st' : State) :
  updateTooltipPosition w steps st = Ok st' ->
  activeStep st' = activeStep st /\ resizeListener st' = resizeListener st.
Proof.
  unfold updateTooltipPosition. intros H.
  destruct (activeStep st <? 0); [injection H as <-; done|].
  destruct (at_index steps (activeStep st)) as [step|]; [|discriminate].
  destruct (getElementById w (elementId step)); injection H as <-; done.
Qed.

Lemma effect_in_range (w : Host) (steps : list Step) (st : State) :
  inRange steps st ->
  exists st', effect w steps st = Ok st' /\
              activeStep st' = activeStep st /\ resizeListener st' = true.
Proof.
  intros Hr. unfold effect.
  destruct (updateTooltipPosition w steps st) as [st1|e] eqn:Hupd.
  - destruct (updateTooltipPosition_frame _ _ _ _ Hupd) as [Ha _].
    exists (setResizeListener true st1). simpl. auto.
  - exfalso. destruct e.
    apply (raises_iff_beyond_end w steps None st) in Hupd.
    unfold inRange in Hr. lia.
Qed.

(** Mounting raises exactly when there is no step and the tooltip is to
    be shown. *)
Theorem mount_raises_iff
    (w : Host) (steps : list Step) (dimStyle : option CSSProperties)
    (showTooltip : option bool) :
  mount w steps dimStyle showTooltip = Throw TypeError <->
  steps = [] /\ showTooltip = Some true.
Proof.
  split.
  - intros Hthrow.
    destruct (decide (steps = [])) as [Hnil|Hne].
    + split; [exact Hnil|].
      destruct showTooltip as [[]|]; [reflexivity | |]; subst steps;
        vm_compute in Hthrow; discriminate.
    + exfalso.
      pose proof (initialState_inRange steps showTooltip (or_introl Hne)) as Hr.
      unfold mount in Hthrow.
      destruct (render steps dimStyle (initialState steps showTooltip)) as [v|e] eqn:Hv.
      * destruct (effect_in_range w steps _ Hr) as (st' & He & _).
        simpl in Hthrow. rewrite He in Hthrow. discriminate.
      * destruct e. apply (raises_iff_beyond_end w) in Hv.
        unfold inRange in Hr. lia.
  - intros [-> ->]. reflexivity.
Qed.

(** In every other case mounting succeeds: step 0 is on screen, with
    the context [{activeStep: 0, steps}], when [showTooltip] is true, and
    only the children (no context) otherwise; the resize listener is
    registered either way. *)
Theorem mount_ok
    (w : Host) (steps : list Step) (dimStyle : option CSSProperties)
    (showTooltip : option bool) :
  steps <> [] \/ showTooltip <> Some true ->
  exists (v : View) (st : State),
    mount w steps dimStyle showTooltip = Ok (v, st) /\
    activeStep st = (if default false showTooltip then 0 else -1) /\
    contextOf v = (if default false showTooltip then Some (0, steps) else None) /\
    resizeListener st = true.
Proof.
  intros Hcase.
  assert (Hr : inRange steps (initialState steps showTooltip)).
  { apply initialState_inRange. destruct Hcase as [Hne|Hshow]; [left; exact Hne|].
    right. destruct showTooltip as [[]|]; [contradiction | reflexivity | reflexivity]. }
  destruct (effect_in_range w steps _ Hr) as (st' & He & Ha & Hl).
  unfold mount.
  destruct (default false showTooltip) eqn:Hshow.
  - assert (H0 : activeStep (initialState steps showTooltip) = 0).
    { unfold initialState. simpl. rewrite Hshow. reflexivity. }
    destruct (at_index_Some steps 0) as [step Hstep].
    { unfold inRange in Hr. rewrite H0 in Hr. lia. }
    rewrite (render_active steps dimStyle _ step) by (rewrite H0; exact Hstep).
    simpl. rewrite He. simpl. eexists _, _. split; [reflexivity|].
    rewrite Ha, H0. repeat split; [|exact Hl].
    unfold initialState. simpl. rewrite Hshow. reflexivity.
  - assert (H0 : activeStep (initialState steps showTooltip) = -1).
    { unfold initialState. simpl. rewrite Hshow. reflexivity. }
    unfold render. rewrite H0. simpl. rewrite He. simpl.
    eexists _, _. split; [reflexivity|]. rewrite Ha, H0. auto.
Qed.

Lemma mount_ok_witness :
  (TutorialSteps <> [] \/ Some true <> Some true) /\
  exists (v : View) (st : State),
    mount pageWithAll TutorialSteps None (Some true) = Ok (v, st) /\
    activeStep st = (if default false (Some true) then 0 else -1) /\
    contextOf v = (if default false (Some true) then Some (0, TutorialSteps) else None) /\
    resizeListener st = true.
Proof.
  assert (H : TutorialSteps <> [] \/ Some true <> Some true) by (left; discriminate).
  split; [exact H|].
  exact (mount_ok pageWithAll TutorialSteps None (Some true) H).
Defined.

(** ** The context handed to descendants *)

(** Whenever a render provides a context, it is [{activeStep, steps}] of
    the component and [steps[activeStep]] is a step: a descendant that
    reads [steps[activeStep].text], as the README's example does, never
    reads [undefined]. *)
Theorem context_indexes_a_step
    (steps : list Step) (dimStyle : option CSSProperties) (st : State)
    (v : View) (a : Z) (s : list Step) :
  render steps dimStyle st = Ok v ->
  contextOf v = Some (a, s) ->
  a = activeStep st /\ s = steps /\ is_Some (at_index s a).
Proof.
  unfold render. intros Hv Hctx.
  destruct (activeStep st <? 0).
  - injection Hv as <-. discriminate.
  - destruct (at_index steps (activeStep st)) as [step|] eqn:Hstep; [|discriminate].
    injection Hv as <-. simpl in Hctx. injection Hctx as <- <-.
    rewrite Hstep. eauto.
Qed.

Lemma context_indexes_a_step_witness :
  exists v : View,
    render TutorialSteps None (showing 1) = Ok v /\
    contextOf v = Some (1, TutorialSteps) /\
    1 = activeStep (showing 1) /\ TutorialSteps = TutorialSteps /\
    is_Some (at_index TutorialSteps 1).
Proof.
  eexists. split; [reflexivity|]. split; [reflexivity|].
  eapply (context_indexes_a_step TutorialSteps None (showing 1)); reflexivity.
Defined.

(** ** The running component *)

Lemma offered_active (steps : list Step) (dimStyle : option CSSProperties)
    (st : State) (step : Step) :
  at_index steps (activeStep st) = Some step ->
  offered steps dimStyle st =
    if activeStep st =? length_of steps - 1 then [HandleClose]
    else [HandleClose; HandleNext].
Proof.
  intros Hstep. unfold offered. rewrite (render_active _ _ _ _ Hstep).
  simpl. unfold onNextProp.
  destruct (activeStep st =? length_of steps - 1); reflexivity.
Qed.

Lemma offered_inactive (steps : list Step) (dimStyle : option CSSProperties) (st : State) :
  activeStep st < 0 -> offered steps dimStyle st = [].
Proof.
  intros Hneg. unfold offered, render.
  destruct (Z.ltb_spec (activeStep st) 0); [reflexivity | lia].
Qed.

Lemma offered_shows_step (steps : list Step) (dimStyle : option CSSProperties)
    (st : State) (h : Handler) :
  h ∈ offered steps dimStyle st ->
  0 <= activeStep st < length_of steps /\
  (h = HandleNext -> activeStep st <> length_of steps - 1).
Proof.
  intros Hin.
  destruct (Z.ltb_spec (activeStep st) 0) as [Hneg|Hpos].
  { rewrite offered_inactive in Hin by exact Hneg. inversion Hin. }
  destruct (Z.lt_ge_cases (activeStep st) (length_of steps)) as [Hlt|Hge].
  - split; [lia|]. intros ->.
    destruct (at_index_Some steps (activeStep st)) as [step Hstep]; [lia|].
    rewrite (offered_active _ _ _ _ Hstep) in Hin.
    destruct (Z.eqb_spec (activeStep st) (length_of steps - 1)); [|assumption].
    apply list_elem_of_singleton in Hin. discriminate.
  - unfold offered, render in Hin.
    destruct (Z.ltb_spec (activeStep st) 0); [lia|].
    rewrite at_index_None in Hin by lia. inversion Hin.
Qed.

Lemma handlerOf_offered (steps : list Step) (dimStyle : option CSSProperties)
    (st : State) (h : Handler) :
  h ∈ offered steps dimStyle st ->
  activeStep (handlerOf h steps st) =
    match h with
    | HandleClose => -1
    | HandleNext => activeStep st + 1
    end /\
  inRange steps (handlerOf h steps st) /\
  activeStep st <> activeStep (handlerOf h steps st).
Proof.
  intros Hin. destruct (offered_shows_step _ _ _ _ Hin) as [Hshown Hnext].
  unfold inRange. destruct h; simpl.
  - split; [reflexivity|]. lia.
  - rewrite handleNext_not_last by auto. simpl.
    specialize (Hnext eq_refl). split; [reflexivity|]. lia.
Qed.

Lemma commit_changed (w : Host) (steps : list Step) (dimStyle : option CSSProperties)
    (before after : State) :
  inRange steps after ->
  activeStep before <> activeStep after ->
  exists st' : State,
    commit w steps dimStyle before after = Ok st' /\
    activeStep st' = activeStep after /\
    resizeListener st' = true.
Proof.
  intros Hr Hchanged.
  destruct (effect_in_range w steps (cleanup after) Hr) as (st' & He & Ha & Hl).
  exists st'. unfold commit.
  destruct (render steps dimStyle after) as [v|e] eqn:Hv.
  - simpl. destruct (Z.eqb_spec (activeStep before) (activeStep after)); [contradiction|].
    auto.
  - exfalso. destruct e. apply (raises_iff_beyond_end w) in Hv.
    unfold inRange in Hr. lia.
Qed.

(** A click on a button that is on screen never raises.  Close ends the
    walkthrough; Next shows the next step, which exists: through the
    tooltip [handleNext] never takes its closing branch.  After either
    the resize listener is registered again. *)
Theorem click_offered
    (w : Host) (steps : list Step) (dimStyle : option CSSProperties)
    (st : State) (h : Handler) :
  h ∈ offered steps dimStyle st ->
  exists st' : State,
    commit w steps dimStyle st (handlerOf h steps st) = Ok st' /\
    activeStep st' =
      match h with
      | HandleClose => -1
      | HandleNext => activeStep st + 1
      end /\
    inRange steps st' /\
    resizeListener st' = true.
Proof.
  intros Hin.
  destruct (handlerOf_offered _ _ _ _ Hin) as (Hafter & Hr & Hchanged).
  destruct (commit_changed w steps dimStyle st _ Hr Hchanged) as (st' & Hc & Ha & Hl).
  exists st'. split; [exact Hc|].
  split; [rewrite Ha; exact Hafter|].
  split; [|exact Hl].
  unfold inRange in *. rewrite Ha. exact Hr.
Qed.

Lemma click_offered_witness :
  HandleNext ∈ offered TutorialSteps None (showing 1) /\
  exists st' : State,
    commit pageWithAll TutorialSteps None (showing 1)
           (handlerOf HandleNext TutorialSteps (showing 1)) = Ok st' /\
    activeStep st' = activeStep (showing 1) + 1 /\
    inRange TutorialSteps st' /\
    resizeListener st' = true.
Proof.
  assert (Hin : HandleNext ∈ offered TutorialSteps None (showing 1)).
  { rewrite (offered_active TutorialSteps None (showing 1) stepA2 eq_refl).
    simpl. set_solver. }
  split; [exact Hin|].
  exact (click_offered pageWithAll TutorialSteps None (showing 1) HandleNext Hin).
Defined.

Lemma ui_step_forward (w : Host) (steps : list Step) (dimStyle : option CSSProperties)
    (st st' : State) :
  ui_step w steps dimStyle st st' ->
  inRange steps st ->
  inRange steps st' /\ (activeStep st' = -1 \/ activeStep st <= activeStep st').
Proof.
  intros Hstep Hr. destruct Hstep as [h st st' Hin Hc | st st' Hres].
  - destruct (handlerOf_offered _ _ _ _ Hin) as (Hafter & Hr1 & Hchanged).
    destruct (commit_changed w steps dimStyle st _ Hr1 Hchanged) as (st2 & Hc2 & Ha & _).
    rewrite Hc in Hc2. injection Hc2 as <-.
    unfold inRange in *. rewrite Ha. split; [exact Hr1|].
    rewrite Hafter. destruct h; [left; reflexivity | right; lia].
  - unfold onResize in Hres. destruct (resizeListener st).
    + destruct (updateTooltipPosition_frame _ _ _ _ Hres) as [Ha _].
      unfold inRange in *. rewrite Ha. split; [exact Hr | right; lia].
    + injection Hres as <-. split; [exact Hr | right; lia].
Qed.

Lemma ui_step_inactive (w : Host) (steps : list Step) (dimStyle : option CSSProperties)
    (st st' : State) :
  activeStep st < 0 -> ui_step w steps dimStyle st st' -> st' = st.
Proof.
  intros Hneg Hstep. destruct Hstep as [h st st' Hin _ | st st' Hres].
  - rewrite offered_inactive in Hin by exact Hneg. inversion Hin.
  - unfold onResize in Hres.
    rewrite updateTooltipPosition_inactive in Hres by exact Hneg.
    destruct (resizeListener st); injection Hres as <-; reflexivity.
Qed.

(** Once the walkthrough is over ([activeStep < 0]) nothing is on
    screen to click and a resize changes nothing: the state stays exactly
    as it is, and the walkthrough cannot be started again. *)
Theorem inactive_is_final
    (w : Host) (steps : list Step) (dimStyle : option CSSProperties) (st st' : State) :
  activeStep st < 0 ->
  rtc (ui_step w steps dimStyle) st st' ->
  st' = st.
Proof.
  intros Hneg Hrun. induction Hrun as [st | st st1 st2 Hstep _ IH]; [reflexivity|].
  pose proof (ui_step_inactive _ _ _ _ _ Hneg Hstep) as ->.
  apply IH, Hneg.
Qed.

Lemma inactive_is_final_witness :
  activeStep inactive < 0 /\
  rtc (ui_step pageWithAll TutorialSteps None) inactive inactive /\
  inactive = inactive.
Proof.
  assert (Hneg : activeStep inactive < 0) by reflexivity.
  assert (Hrun : rtc (ui_step pageWithAll TutorialSteps None) inactive inactive).
  { apply rtc_once, ui_resize. reflexivity. }
  split; [exact Hneg|]. split; [exact Hrun|].
  exact (inactive_is_final pageWithAll TutorialSteps None inactive inactive Hneg Hrun).
Defined.

(** ** Styles *)

Lemma spread_lookup (a b : CSSProperties) (k : string) :
  spread a (Some b) !! k =
    match b !! k with
    | Some v => Some v
    | None => a !! k
    end.
Proof.
  unfold spread. rewrite lookup_union.
  destruct (b !! k), (a !! k); reflexivity.
Qed.

(** The tooltip style after [handleNext] moved to a step is built afresh:
    a property has the value of the step's [tooltipStyle] where that
    gives one, and the default value otherwise; nothing of the previous
    style (the previous step's overrides, the previous placement) is
    kept. *)
Theorem handleNext_style_is_fresh
    (steps : list Step) (st : State) (step : Step) (k : string) :
  activeStep st <> length_of steps - 1 ->
  at_index steps (activeStep st + 1) = Some step ->
  curTooltipStyle (advance steps st) !! k =
    match tooltipStyle step with
    | Some override =>
        match override !! k with
        | Some v => Some v
        | None => defaultTooltipStyle !! k
        end
    | None => defaultTooltipStyle !! k
    end.
Proof.
  intros Hnot Hstep. rewrite handleNext_not_last by exact Hnot.
  simpl. rewrite Hstep. simpl.
  destruct (tooltipStyle step) as [override|]; [apply spread_lookup | reflexivity].
Qed.

Lemma handleNext_style_is_fresh_witness :
  activeStep inactive <> length_of TutorialSteps - 1 /\
  at_index TutorialSteps (activeStep inactive + 1) = Some stepA1 /\
  curTooltipStyle (advance TutorialSteps inactive) !! "color" = Some (CssStr "yellow") /\
  curTooltipStyle (advance TutorialSteps inactive) !! "zIndex" = Some (CssNum 1001).
Proof.
  assert (Hnot : activeStep inactive <> length_of TutorialSteps - 1) by discriminate.
  assert (Hstep : at_index TutorialSteps (activeStep inactive + 1) = Some stepA1)
    by reflexivity.
  split; [exact Hnot|]. split; [exact Hstep|]. split.
  - rewrite (handleNext_style_is_fresh TutorialSteps inactive stepA1 "color" Hnot Hstep).
    reflexivity.
  - rewrite (handleNext_style_is_fresh TutorialSteps inactive stepA1 "zIndex" Hnot Hstep).
    reflexivity.
Defined.

(** A placement update that returns touches three style properties at
    most: every property other than [position], [top] and [left] keeps
    its value, and so do [activeStep] and the listener. *)
Theorem updateTooltipPosition_keeps_other_properties
    (w : Host) (steps : list Step) (st st' : State) (k : string) :
  updateTooltipPosition w steps st = Ok st' ->
  k <> "position" -> k <> "top" -> k <> "left" ->
  curTooltipStyle st' !! k = curTooltipStyle st !! k /\
  activeStep st' = activeStep st /\
  resizeListener st' = resizeListener st.
Proof.
  intros Hupd Hp Ht Hl.
  split; [|exact (updateTooltipPosition_frame _ _ _ _ Hupd)].
  unfold updateTooltipPosition in Hupd.
  destruct (activeStep st <? 0); [injection Hupd as <-; reflexivity|].
  destruct (at_index steps (activeStep st)) as [step|]; [|discriminate].
  destruct (getElementById w (elementId step)) as [target|];
    injection Hupd as <-; [|reflexivity].
  simpl. unfold positioned.
  rewrite !lookup_insert_ne by congruence. reflexivity.
Qed.

Lemma positioned_idempotent (p : Placement) (s : CSSProperties) :
  positioned p (positioned p s) = positioned p s.
Proof.
  apply map_eq. intros k. unfold positioned.
  rewrite !lookup_insert. repeat case_decide; reflexivity.
Qed.

(** Recomputing the placement is idempotent: in an unchanged window and
    document a second update returns the state the first one gave. *)
Theorem updateTooltipPosition_idempotent
    (w : Host) (steps : list Step) (st st' : State) :
  updateTooltipPosition w steps st = Ok st' ->
  updateTooltipPosition w steps st' = Ok st'.
Proof.
  intros Hupd. unfold updateTooltipPosition in *.
  destruct (activeStep st <? 0) eqn:Hneg.
  { injection Hupd as <-. rewrite Hneg. reflexivity. }
  destruct (at_index steps (activeStep st)) as [step|] eqn:Hstep; [|discriminate].
  destruct (getElementById w (elementId step)) as [target|] eqn:Hel;
    injection Hupd as <-; simpl; rewrite Hneg, Hstep, Hel; [|reflexivity].
  unfold setCurrentTooltipStyle. simpl. rewrite positioned_idempotent. reflexivity.
Qed.

(** The style of the dimming layer.  The seven properties that pin it to
    the viewport always have their fixed values, whatever [dimStyle]
    says.  Any other property is taken from [dimStyle] when one is given,
    and from the default dim style only when none is: a [dimStyle]
    without [zIndex] leaves the layer without one. *)
Theorem dimOf_lookup (dimStyle : option CSSProperties) (k : string) :
  dimOf dimStyle !! k =
    match fixedFullScreen !! k with
    | Some v => Some v
    | None =>
        match dimStyle with
        | Some d => d !! k
        | None => defaultDimStyle !! k
        end
    end /\
  (forall d : CSSProperties, dimOf (Some d) !! "zIndex" = d !! "zIndex") /\
  dimOf None !! "zIndex" = Some (CssNum 1000).
Proof.
  split; [|split].
  - unfold dimOf, defaultBodyDimStyle.
    destruct dimStyle as [d|]; rewrite spread_lookup; reflexivity.
  - intros d. unfold dimOf. rewrite spread_lookup. reflexivity.
  - reflexivity.
Qed.

Lemma updateTooltipPosition_keeps_other_properties_witness :
  updateTooltipPosition pageWithAll TutorialSteps unplacedA1 = Ok placedA1 /\
  curTooltipStyle placedA1 !! "color" = curTooltipStyle unplacedA1 !! "color" /\
  activeStep placedA1 = activeStep unplacedA1 /\
  resizeListener placedA1 = resizeListener unplacedA1.
Proof.
  assert (Hupd : updateTooltipPosition pageWithAll TutorialSteps unplacedA1 = Ok placedA1)
    by reflexivity.
  split; [exact Hupd|].
  apply (updateTooltipPosition_keeps_other_properties
           pageWithAll TutorialSteps unplacedA1 placedA1 "color" Hupd); discriminate.
Defined.

Lemma updateTooltipPosition_idempotent_witness :
  updateTooltipPosition pageWithAll TutorialSteps unplacedA1 = Ok placedA1 /\
  updateTooltipPosition pageWithAll TutorialSteps placedA1 = Ok placedA1.
Proof.
  assert (Hupd : updateTooltipPosition pageWithAll TutorialSteps unplacedA1 = Ok placedA1)
    by reflexivity.
  split; [exact Hupd|].
  exact (updateTooltipPosition_idempotent
           pageWithAll TutorialSteps unplacedA1 placedA1 Hupd).
Defined.

(** ** More on the placement *)



(** A tooltip that fits is placed by the anchor arithmetic alone: when
    the values that reach the clamp lie within the window bounds, the
    placement is these values. *)
Theorem placement_exact_when_it_fits (step : Step) (target : Element) (w : Host) :
  (0 <= preClampTop step target w)%Q ->
  (preClampTop step target w <= NtoQ (innerHeight w))%Q ->
  (0 <= preClampLeft step target w)%Q ->
  (preClampLeft step target w <= NtoQ (innerWidth w) - tooltipWidth)%Q ->
  (p_top (computePlacement step target w) == preClampTop step target w)%Q /\
  (p_left (computePlacement step target w) == preClampLeft step target w)%Q.
Proof.
  intros Ht0 Ht1 Hl0 Hl1. simpl. unfold clampTop, clampLeft. split.
  - rewrite (Q.min_l _ _ Ht1). apply Q.max_r, Ht0.
  - rewrite (Q.min_l _ _ Hl1). apply Q.max_r, Hl0.
Qed.

Lemma placement_exact_when_it_fits_witness :
  (0 <= preClampTop stepA1 exampleTarget pageWithAll)%Q /\
  (preClampTop stepA1 exampleTarget pageWithAll <= NtoQ (innerHeight pageWithAll))%Q /\
  (0 <= preClampLeft stepA1 exampleTarget pageWithAll)%Q /\
  (preClampLeft stepA1 exampleTarget pageWithAll
   <= NtoQ (innerWidth pageWithAll) - tooltipWidth)%Q /\
  (p_top (computePlacement stepA1 exampleTarget pageWithAll)
   == preClampTop stepA1 exampleTarget pageWithAll)%Q /\
  (p_left (computePlacement stepA1 exampleTarget pageWithAll)
   == preClampLeft stepA1 exampleTarget pageWithAll)%Q.
Proof.
  assert (Ht0 : (0 <= preClampTop stepA1 exampleTarget pageWithAll)%Q)
    by (vm_compute; discriminate).
  assert (Ht1 : (preClampTop stepA1 exampleTarget pageWithAll
                 <= NtoQ (innerHeight pageWithAll))%Q)
    by (vm_compute; discriminate).
  assert (Hl0 : (0 <= preClampLeft stepA1 exampleTarget pageWithAll)%Q)
    by (vm_compute; discriminate).
  assert (Hl1 : (preClampLeft stepA1 exampleTarget pageWithAll
                 <= NtoQ (innerWidth pageWithAll) - tooltipWidth)%Q)
    by (vm_compute; discriminate).
  repeat (split; [assumption|]).
  exact (placement_exact_when_it_fits stepA1 exampleTarget pageWithAll Ht0 Ht1 Hl0 Hl1).
Defined.





Lemma jsOr_zero (a b : Q) : (a == 0)%Q -> jsOr a b = b.
Proof. intros H. unfold jsOr. apply Qeq_bool_iff in H. rewrite H. reflexivity. Qed.

Lemma jsOr_nonzero (a b : Q) : ~ (a == 0)%Q -> jsOr a b = a.
Proof.
  intros H. unfold jsOr. destruct (Qeq_bool a 0) eqn:E; [|reflexivity].
  apply Qeq_bool_iff in E. contradiction.
Qed.

Lemma jsOr_chain (a b c : Q) :
  (jsOr (jsOr (jsOr a b) c) 0 == firstNonZero a b c)%Q.
Proof.
  unfold firstNonZero.
  destruct (Qeq_bool a 0) eqn:Ea.
  - apply Qeq_bool_iff in Ea. rewrite (jsOr_zero a b Ea).
    destruct (Qeq_bool b 0) eqn:Eb.
    + apply Qeq_bool_iff in Eb. rewrite (jsOr_zero b c Eb).
      unfold jsOr. destruct (Qeq_bool c 0) eqn:Ec; [|reflexivity].
      apply Qeq_bool_iff in Ec. rewrite Ec. reflexivity.
    + apply Qeq_bool_neq in Eb.
      rewrite (jsOr_nonzero b c Eb), (jsOr_nonzero b 0 Eb). reflexivity.
  - apply Qeq_bool_neq in Ea.
    rewrite (jsOr_nonzero a b Ea), (jsOr_nonzero a c Ea), (jsOr_nonzero a 0 Ea).
    reflexivity.
Qed.

(** The scroll offset the placement uses is the first of
    [window.pageYOffset], [document.documentElement.scrollTop] and
    [document.body.scrollTop] that is not zero: a later source counts
    only when every earlier one is zero, and the offset is zero exactly
    when all three are.  The same holds horizontally. *)
Theorem scroll_offset_is_first_nonzero (w : Host) :
  (scrollTop w ==
   firstNonZero (pageYOffset w) (documentElement_scrollTop w) (body_scrollTop w))%Q /\
  (scrollLeft w ==
   firstNonZero (pageXOffset w) (documentElement_scrollLeft w) (body_scrollLeft w))%Q /\
  ((scrollTop w == 0)%Q <->
   (pageYOffset w == 0)%Q /\ (documentElement_scrollTop w == 0)%Q /\
   (body_scrollTop w == 0)%Q).
Proof.
  split; [apply jsOr_chain|]. split; [apply jsOr_chain|].
  unfold scrollTop. rewrite jsOr_chain. unfold firstNonZero.
  destruct (Qeq_bool (pageYOffset w) 0) eqn:Ea;
    [apply Qeq_bool_iff in Ea | apply Qeq_bool_neq in Ea].
  - destruct (Qeq_bool (documentElement_scrollTop w) 0) eqn:Eb;
      [apply Qeq_bool_iff in Eb | apply Qeq_bool_neq in Eb].
    + split; [intros Hc; auto | intros (_ & _ & Hc); exact Hc].
    + split; [intros Hc; contradiction | intros (_ & Hb & _); exact Hb].
  - split; [intros Hc; contradiction | intros (Ha & _); exact Ha].
Qed.

(** The placement is in document coordinates: when the offset read from
    the window grows by [(dy, dx)] and the target's box moves by
    [(-dy, -dx)] in a window of the same size, as happens when the page
    is scrolled, the placement stays where it is. *)
Theorem placement_follows_scroll
    (step : Step) (target : Element) (w1 w2 : Host) (dy dx : Q) :
  innerWidth w2 = innerWidth w1 ->
  innerHeight w2 = innerHeight w1 ->
  (scrollTop w2 == scrollTop w1 + dy)%Q ->
  (scrollLeft w2 == scrollLeft w1 + dx)%Q ->
  (p_top (computePlacement step (movedBy (- dy) (- dx) target) w2)
   == p_top (computePlacement step target w1))%Q /\
  (p_left (computePlacement step (movedBy (- dy) (- dx) target) w2)
   == p_left (computePlacement step target w1))%Q.
Proof.
  intros HW HH Hy Hx.
  unfold computePlacement, clampTop, clampLeft, preClampTop, preClampLeft.
  cbn [p_top p_left movedBy rect_top rect_left offsetHeight offsetWidth].
  rewrite HW, HH.
  assert (Et : (rect_top target + - dy + scrollTop w2
                == rect_top target + scrollTop w1)%Q)
    by (setoid_rewrite Hy; ring).
  assert (El : (rect_left target + - dx + scrollLeft w2
                == rect_left target + scrollLeft w1)%Q)
    by (setoid_rewrite Hx; ring).
  split.
  - apply Q.max_compat; [reflexivity|]. apply Q.min_compat; [|reflexivity].
    apply Qplus_comp; [|reflexivity].
    destruct (verticalPosition step) as [[]|]; simpl; rewrite Et; reflexivity.
  - apply Q.max_compat; [reflexivity|]. apply Q.min_compat; [|reflexivity].
    destruct (horizontalPosition step) as [[]|]; simpl; rewrite El; reflexivity.
Qed.

Lemma placement_follows_scroll_witness :
  innerWidth (scrolledTo 120 30 pageWithAll) = innerWidth pageWithAll /\
  innerHeight (scrolledTo 120 30 pageWithAll) = innerHeight pageWithAll /\
  (scrollTop (scrolledTo 120 30 pageWithAll) == scrollTop pageWithAll + 120)%Q /\
  (scrollLeft (scrolledTo 120 30 pageWithAll) == scrollLeft pageWithAll + 30)%Q /\
  (p_top (computePlacement stepA1 (movedBy (- (120)) (- (30)) exampleTarget)
            (scrolledTo 120 30 pageWithAll))
   == p_top (computePlacement stepA1 exampleTarget pageWithAll))%Q /\
  (p_left (computePlacement stepA1 (movedBy (- (120)) (- (30)) exampleTarget)
             (scrolledTo 120 30 pageWithAll))
   == p_left (computePlacement stepA1 exampleTarget pageWithAll))%Q.
Proof.
  split; [reflexivity|]. split; [reflexivity|].
  split; [reflexivity|]. split; [reflexivity|].
  apply (placement_follows_scroll stepA1 exampleTarget pageWithAll
           (scrolledTo 120 30 pageWithAll) 120 30); reflexivity.
Defined.

(** Step 0 looks the same however it is reached: [handleNext] on a
    component that was constructed without showing the tooltip gives the
    very state of a component constructed with [showTooltip = true]. *)
Theorem advance_from_unstarted_is_started (steps : list Step) (showTooltip : option bool) :
  steps <> [] ->
  default false showTooltip = false ->
  advance steps (initialState steps showTooltip) = initialState steps (Some true).
Proof.
  intros Hne Hshow.
  assert (Hlen : length_of steps <> 0) by (intros H0; apply Hne, length_of_nil_iff, H0).
  unfold initialState. rewrite Hshow. simpl.
  rewrite handleNext_not_last by (simpl; lia). reflexivity.
Qed.

Lemma advance_from_unstarted_is_started_witness :
  TutorialSteps <> [] /\ default false (@None bool) = false /\
  advance TutorialSteps (initialState TutorialSteps None)
  = initialState TutorialSteps (Some true).
Proof.
  split; [discriminate|]. split; [reflexivity|].
  apply (advance_from_unstarted_is_started TutorialSteps None);
    [discriminate | reflexivity].
Defined.

(** ** Runs in a changing window *)

Lemma ui_event_forward (steps : list Step) (dimStyle : option CSSProperties)
    (st st' : State) :
  ui_event steps dimStyle st st' ->
  inRange steps st ->
  inRange steps st' /\ (activeStep st' = -1 \/ activeStep st <= activeStep st').
Proof. intros [w Hstep]. exact (ui_step_forward w _ _ _ _ Hstep). Qed.

Lemma ui_event_inactive (steps : list Step) (dimStyle : option CSSProperties)
    (st st' : State) :
  activeStep st < 0 -> ui_event steps dimStyle st st' -> st' = st.
Proof. intros Hneg [w Hstep]. exact (ui_step_inactive w _ _ _ _ Hneg Hstep). Qed.

(** While the component runs (clicks on the buttons on screen and
    window resizes in any order, each event in whatever window and
    document it finds) [activeStep] stays in range and never goes back
    to an earlier step: it is where it was or further on, or -1. *)
Theorem events_stay_in_range_and_forward
    (steps : list Step) (dimStyle : option CSSProperties) (st st' : State) :
  rtc (ui_event steps dimStyle) st st' ->
  inRange steps st ->
  inRange steps st' /\ (activeStep st' = -1 \/ activeStep st <= activeStep st').
Proof.
  intros Hrun Hr. revert st' Hrun.
  apply (rtc_ind_r (fun st' => inRange steps st' /\
                               (activeStep st' = -1 \/ activeStep st <= activeStep st'))).
  - split; [exact Hr | right; lia].
  - intros st1 st2 _ Hstep [Hr1 Hfw1].
    destruct (ui_event_forward _ _ _ _ Hstep Hr1) as [Hr2 Hfw2].
    split; [exact Hr2|].
    destruct Hfw1 as [Hend1|Hle1].
    + (* over already: the last event changed nothing *)
      assert (Hneg : activeStep st1 < 0) by lia.
      left. rewrite (ui_event_inactive _ _ _ _ Hneg Hstep). exact Hend1.
    + destruct Hfw2 as [Hend2|Hle2]; [left; exact Hend2 | right; lia].
Qed.

Lemma events_stay_in_range_and_forward_witness :
  inRange TutorialSteps placedA1 /\
  exists st' : State,
    rtc (ui_event TutorialSteps None) placedA1 st' /\
    activeStep st' = 1 /\
    inRange TutorialSteps st' /\
    (activeStep st' = -1 \/ activeStep placedA1 <= activeStep st').
Proof.
  assert (Hr : inRange TutorialSteps placedA1).
  { unfold inRange. vm_compute. split; [discriminate | reflexivity]. }
  (* a resize to a narrow window, then Next in the wide one *)
  set (narrow := unscrolled (onlyElement "a1" exampleTarget) 200 600).
  destruct (updateTooltipPosition narrow TutorialSteps placedA1) as [st1|e] eqn:Hupd;
    [|discriminate Hupd].
  destruct (updateTooltipPosition_frame _ _ _ _ Hupd) as [Ha1 Hl1].
  assert (Hres : ui_event TutorialSteps None placedA1 st1).
  { exists narrow. apply ui_resize. unfold onResize. exact Hupd. }
  assert (Hstep1 : at_index TutorialSteps (activeStep st1) = Some stepA1)
    by (rewrite Ha1; reflexivity).
  assert (Hin : HandleNext ∈ offered TutorialSteps None st1).
  { rewrite (offered_active TutorialSteps None st1 stepA1 Hstep1), Ha1.
    simpl. set_solver. }
  destruct (handlerOf_offered _ _ _ _ Hin) as (Hafter & Hr1 & Hchanged).
  destruct (commit_changed pageWithAll TutorialSteps None st1 _ Hr1 Hchanged)
    as (st' & Hc & Ha & _).
  assert (Hclick : ui_event TutorialSteps None st1 st').
  { exists pageWithAll. exact (ui_click _ _ _ HandleNext _ _ Hin Hc). }
  assert (Hrun : rtc (ui_event TutorialSteps None) placedA1 st').
  { eapply rtc_l; [exact Hres|]. apply rtc_once, Hclick. }
  split; [exact Hr|]. exists st'. split; [exact Hrun|]. split.
  - rewrite Ha, Hafter, Ha1. reflexivity.
  - exact (events_stay_in_range_and_forward TutorialSteps None placedA1 st' Hrun Hr).
Defined.

(** ** The placement on doubles *)

Lemma SFcompare_antisym (x y : spec_float) :
  SFcompare y x = option_map CompOpp (SFcompare x y).
Proof.
  destruct x as [sx|sx| |sx mx ex], y as [sy|sy| |sy my ey]; simpl; try reflexivity;
    try (destruct sx; reflexivity); try (destruct sy; reflexivity);
    try (destruct sx, sy; reflexivity).
  change (Pos.compare_cont Eq my mx) with (my ?= mx)%positive.
  change (Pos.compare_cont Eq mx my) with (mx ?= my)%positive.
  rewrite (Z.compare_antisym ex ey), (Pos.compare_antisym mx my).
  destruct sx, sy; simpl; try reflexivity;
    destruct (ex ?= ey)%Z; simpl; try reflexivity;
    destruct (mx ?= my)%positive; reflexivity.
Qed.

Lemma float_not_nan_compare (x : float) :
  is_nan x = false -> SFcompare (Prim2SF x) (Prim2SF x) = Some Eq.
Proof.
  unfold is_nan. rewrite FloatAxioms.eqb_spec. unfold SFeqb.
  destruct (SFcompare (Prim2SF x) (Prim2SF x)) as [[]|]; simpl; congruence.
Qed.

Lemma float_not_nan_spec (x : float) : is_nan x = false -> Prim2SF x <> S754_nan.
Proof.
  intros H E. apply float_not_nan_compare in H. rewrite E in H. discriminate.
Qed.

Lemma SFcompare_defined (x y : spec_float) :
  x <> S754_nan -> y <> S754_nan -> exists c, SFcompare x y = Some c.
Proof. intros Hx Hy. destruct x, y; try contradiction; simpl; eauto. Qed.

Lemma float_ltb_false_leb (x y : float) :
  is_nan x = false -> is_nan y = false ->
  (x <? y)%float = false -> (y <=? x)%float = true.
Proof.
  intros Hx Hy. rewrite ltb_spec, leb_spec. unfold SFltb, SFleb.
  rewrite (SFcompare_antisym (Prim2SF x) (Prim2SF y)).
  destruct (SFcompare_defined _ _ (float_not_nan_spec x Hx) (float_not_nan_spec y Hy))
    as [c ->].
  destruct c; simpl; congruence.
Qed.

Lemma float_ltb_leb (x y : float) : (x <? y)%float = true -> (x <=? y)%float = true.
Proof.
  rewrite ltb_spec, leb_spec. unfold SFltb, SFleb.
  destruct (SFcompare (Prim2SF x) (Prim2SF y)) as [[]|]; congruence.
Qed.

Lemma float_leb_refl (x : float) : is_nan x = false -> (x <=? x)%float = true.
Proof.
  intros Hx. rewrite leb_spec. unfold SFleb.
  rewrite (float_not_nan_compare x Hx). reflexivity.
Qed.

Lemma float_ltb_asym (x y : float) : (x <? y)%float = true -> (y <? x)%float = false.
Proof.
  rewrite !ltb_spec. unfold SFltb.
  rewrite (SFcompare_antisym (Prim2SF x) (Prim2SF y)).
  destruct (SFcompare (Prim2SF x) (Prim2SF y)) as [[]|]; simpl; congruence.
Qed.

(** [0 < m <= b] gives [0 < b]. *)
Lemma float_pos_leb_pos (m b : float) :
  (0 <? m)%float = true -> (m <=? b)%float = true -> (0 <? b)%float = true.
Proof.
  rewrite !ltb_spec, leb_spec. unfold SFltb, SFleb.
  change (Prim2SF 0) with (S754_zero false).
  destruct (Prim2SF m) as [sm|sm| |sm mm em], (Prim2SF b) as [sb|sb| |sb mb eb];
    simpl; try discriminate; try (destruct sm; discriminate);
    try (destruct sm, sb; simpl; congruence).
Qed.

(** [a + 0] is [a], except that [-0 + 0] is [+0]. *)
Lemma float_add_zero_r (a : float) : classify a <> NZero -> (a + 0)%float = a.
Proof.
  intros Hnz. apply Prim2SF_inj. rewrite add_spec.
  change (Prim2SF 0) with (S754_zero false).
  destruct (Prim2SF a) as [sa|sa| |sa ma ea] eqn:Ea; try reflexivity.
  destruct sa; [|reflexivity].
  exfalso. apply Hnz. rewrite classify_spec, Ea. reflexivity.
Qed.

Lemma mathMin_spec (a b : float) :
  is_nan a = false -> is_nan b = false ->
  is_nan (Double.mathMin a b) = false /\
  (Double.mathMin a b <=? b)%float = true /\
  (Double.mathMin a b <=? a)%float = true.
Proof.
  intros Ha Hb. unfold Double.mathMin. rewrite Ha, Hb. simpl.
  destruct (a <? b)%float eqn:Hab.
  - split; [exact Ha|]. split; [apply float_ltb_leb, Hab | apply float_leb_refl, Ha].
  - destruct (b <? a)%float eqn:Hba.
    + split; [exact Hb|]. split; [apply float_leb_refl, Hb | apply float_ltb_leb, Hba].
    + destruct (classify a);
        (split; [assumption|]); split;
        first [apply float_leb_refl; assumption | apply float_ltb_false_leb; assumption].
Qed.

Lemma mathMax_zero_spec (m : float) :
  is_nan m = false ->
  is_nan (Double.mathMax 0 m) = false /\
  (0 <=? Double.mathMax 0 m)%float = true /\
  ((0 <? m)%float = true /\ Double.mathMax 0 m = m \/
   (0 <? m)%float = false /\ Double.mathMax 0 m = 0%float).
Proof.
  intros Hm. unfold Double.mathMax. change (is_nan 0) with false. rewrite Hm. simpl.
  destruct (0 <? m)%float eqn:H0m.
  - split; [exact Hm|]. split; [apply float_ltb_leb, H0m | left; auto].
  - change (classify 0) with PZero.
    destruct (m <? 0)%float; (split; [reflexivity|]); split; try reflexivity; right; auto.
Qed.

Lemma clamp_of_nan (lo hi x : float) :
  is_nan x = true -> is_nan (Double.mathMax lo (Double.mathMin x hi)) = true.
Proof.
  intros Hx. unfold Double.mathMax, Double.mathMin. rewrite Hx. simpl.
  rewrite Bool.orb_true_r. reflexivity.
Qed.

(** The clamp between [0] and a bound that is not [NaN], on a value that
    is not [NaN]. *)
Lemma clamp_spec (x bound : float) :
  is_nan x = false -> is_nan bound = false ->
  (0 <=? Double.mathMax 0 (Double.mathMin x bound))%float = true /\
  if (bound <? 0)%float then Double.mathMax 0 (Double.mathMin x bound) = 0%float
  else (Double.mathMax 0 (Double.mathMin x bound) <=? bound)%float = true.
Proof.
  intros Hx Hb.
  destruct (mathMin_spec x bound Hx Hb) as (Hm & Hmb & _).
  destruct (mathMax_zero_spec _ Hm) as (_ & H0r & Hcases).
  split; [exact H0r|].
  destruct (bound <? 0)%float eqn:Hneg.
  - destruct Hcases as [[Hpos _]|[_ Hr]]; [|exact Hr].
    pose proof (float_pos_leb_pos _ _ Hpos Hmb) as Hbpos.
    apply float_ltb_asym in Hbpos. congruence.
  - destruct Hcases as [[_ ->]|[_ ->]]; [exact Hmb|].
    apply float_ltb_false_leb; [exact Hb | reflexivity | exact Hneg].
Qed.

(** C4, amended, on doubles.  In a window whose [innerHeight] is a
    number at least 0 and whose [innerWidth - 300] is a number: when the
    value of [top] that reaches the clamp is not [NaN], the placement has
    [0 <= top <= innerHeight], and when it is [NaN] so is [top]; when the
    value of [left] that reaches the clamp is not [NaN], the placement
    has [0 <= left], with [left = 0] if [innerWidth - 300] is negative
    and [left <= innerWidth - 300] otherwise, and when it is [NaN] so is
    [left]. *)
Theorem double_placement_bounds
    (step : Double.Step) (target : Double.Element) (w : Double.Window) :
  is_nan (Double.innerHeight w) = false ->
  (0 <=? Double.innerHeight w)%float = true ->
  is_nan (Double.innerWidth w - 300)%float = false ->
  (if is_nan (Double.preClampTop step target w)
   then is_nan (Double.p_top (Double.computePlacement step target w)) = true
   else (0 <=? Double.p_top (Double.computePlacement step target w))%float = true /\
        (Double.p_top (Double.computePlacement step target w)
         <=? Double.innerHeight w)%float = true) /\
  (if is_nan (Double.preClampLeft step target w)
   then is_nan (Double.p_left (Double.computePlacement step target w)) = true
   else (0 <=? Double.p_left (Double.computePlacement step target w))%float = true /\
        if (Double.innerWidth w - 300 <? 0)%float
        then Double.p_left (Double.computePlacement step target w) = 0%float
        else (Double.p_left (Double.computePlacement step target w)
              <=? Double.innerWidth w - 300)%float = true).
Proof.
  intros HH H0 HW. simpl. unfold Double.clampTop, Double.clampLeft, Double.tooltipWidth.
  split.
  - destruct (is_nan (Double.preClampTop step target w)) eqn:Ht.
    + apply clamp_of_nan, Ht.
    + destruct (clamp_spec _ _ Ht HH) as [Hlo Hhi]. split; [exact Hlo|].
      destruct (Double.innerHeight w <? 0)%float eqn:Hneg; [|exact Hhi].
      (* a height that is at least 0 is not negative *)
      rewrite Hhi. exact H0.
  - destruct (is_nan (Double.preClampLeft step target w)) eqn:Hl.
    + apply clamp_of_nan, Hl.
    + apply clamp_spec; assumption.
Qed.

Lemma double_placement_bounds_witness :
  is_nan (Double.innerHeight (Double.unscrolled 800 600)) = false /\
  (0 <=? Double.innerHeight (Double.unscrolled 800 600))%float = true /\
  is_nan (Double.innerWidth (Double.unscrolled 800 600) - 300)%float = false /\
  is_nan (Double.preClampTop (Double.centeredWith None) Double.exampleTarget
            (Double.unscrolled 800 600)) = false /\
  (0 <=? Double.p_top (Double.computePlacement (Double.centeredWith None)
                         Double.exampleTarget (Double.unscrolled 800 600)))%float = true /\
  (Double.p_top (Double.computePlacement (Double.centeredWith None)
                   Double.exampleTarget (Double.unscrolled 800 600))
   <=? 600)%float = true /\
  is_nan (Double.p_top (Double.computePlacement
                          (Double.withVerticalOffset (Some nan) (Double.centeredWith None))
                          Double.exampleTarget (Double.unscrolled 800 600))) = true.
Proof.
  pose proof (double_placement_bounds (Double.centeredWith None) Double.exampleTarget
                (Double.unscrolled 800 600) eq_refl eq_refl eq_refl) as [Htop _].
  pose proof (double_placement_bounds
                (Double.withVerticalOffset (Some nan) (Double.centeredWith None))
                Double.exampleTarget
                (Double.unscrolled 800 600) eq_refl eq_refl eq_refl) as [Hnan _].
  do 4 (split; [reflexivity|]).
  split; [exact (proj1 Htop)|]. split; [exact (proj2 Htop) | exact Hnan].
Defined.

(** In a window whose [innerWidth - 300] is negative every tooltip whose
    [left] reaches the clamp as a number is placed at [left = 0]; in any
    other window its [left] lies between 0 and [innerWidth - 300]. *)
Theorem double_left_by_window_width
    (step : Double.Step) (target : Double.Element) (w : Double.Window) :
  is_nan (Double.preClampLeft step target w) = false ->
  is_nan (Double.innerWidth w - 300)%float = false ->
  if (Double.innerWidth w - 300 <? 0)%float
  then Double.p_left (Double.computePlacement step target w) = 0%float
  else (0 <=? Double.p_left (Double.computePlacement step target w))%float = true /\
       (Double.p_left (Double.computePlacement step target w)
        <=? Double.innerWidth w - 300)%float = true.
Proof.
  intros Hl HW. simpl. unfold Double.clampLeft, Double.tooltipWidth.
  destruct (clamp_spec _ _ Hl HW) as [Hlo Hhi].
  destruct (Double.innerWidth w - 300 <? 0)%float; [exact Hhi | split; assumption].
Qed.

Lemma double_left_by_window_width_witness :
  (is_nan (Double.preClampLeft (Double.centeredWith None) Double.exampleTarget
             (Double.unscrolled 200 600)) = false /\
   is_nan (Double.innerWidth (Double.unscrolled 200 600) - 300)%float = false /\
   (Double.innerWidth (Double.unscrolled 200 600) - 300 <? 0)%float = true /\
   Double.p_left (Double.computePlacement (Double.centeredWith None) Double.exampleTarget
                    (Double.unscrolled 200 600)) = 0%float) /\
  (is_nan (Double.preClampLeft (Double.anchoredAt None None) Double.exampleTarget
             (Double.unscrolled 800 600)) = false /\
   is_nan (Double.innerWidth (Double.unscrolled 800 600) - 300)%float = false /\
   (Double.innerWidth (Double.unscrolled 800 600) - 300 <? 0)%float = false /\
   (Double.p_left (Double.computePlacement (Double.anchoredAt None None)
                     Double.exampleTarget (Double.unscrolled 800 600))
    <=? 500)%float = true).
Proof.
  pose proof (double_left_by_window_width (Double.centeredWith None) Double.exampleTarget
                (Double.unscrolled 200 600) eq_refl eq_refl) as Hnarrow.
  pose proof (double_left_by_window_width (Double.anchoredAt None None)
                Double.exampleTarget (Double.unscrolled 800 600) eq_refl eq_refl) as Hwide.
  split.
  - do 3 (split; [reflexivity|]). exact Hnarrow.
  - do 3 (split; [reflexivity|]). exact (proj2 Hwide).
Defined.

(** C7, as stated, fails on doubles.  For a target a tenth of a pixel
    from the left edge and the anchor [Center], [horizontalOffset = 0.2]
    gives a pre-clamp [left] that is neither the double sum of the
    zero-offset value and 0.2 (so their difference as real numbers is not
    0.2 either, or that sum would be exact), nor 0.2 away from it by the
    subtraction of doubles. *)
Lemma double_offset_shift_not_exact :
  (Double.preClampLeft (Double.centeredWith (Some Double.fifth)) Double.tenthTarget
     (Double.unscrolled 800 600)
   =? Double.preClampLeft (Double.centeredWith (Some 0%float)) Double.tenthTarget
        (Double.unscrolled 800 600) + Double.fifth)%float = false /\
  (Double.preClampLeft (Double.centeredWith (Some Double.fifth)) Double.tenthTarget
     (Double.unscrolled 800 600)
   - Double.preClampLeft (Double.centeredWith (Some 0%float)) Double.tenthTarget
       (Double.unscrolled 800 600)
   =? Double.fifth)%float = false.
Proof. split; reflexivity. Qed.

(** C7, amended, on doubles.  The offset is added by one double
    addition right after the anchor adjustment, in the same way for
    every anchor.  So with [verticalOffset = d] the pre-clamp [top] is
    the double sum of the zero-offset pre-clamp [top] and [d], whatever
    the vertical anchor; with [horizontalOffset = d] the pre-clamp [left]
    is the double sum of the zero-offset pre-clamp [left] and [d] for
    [Left], [Right] and an omitted anchor, while for [Center] the
    correction of 150 is subtracted after the offset was added.  (The
    anchored values are taken not to be [-0], which [+ 0] would turn into
    [+0].) *)
Theorem double_offsets_added_after_anchor
    (step : Double.Step) (target : Double.Element) (w : Double.Window)
    (d : float) (written : bool) :
  classify (Double.anchoredTop step target w) <> NZero ->
  classify (Double.anchoredLeft step target w) <> NZero ->
  Double.preClampTop (Double.withVerticalOffset (Some d) step) target w =
    (Double.preClampTop (Double.withVerticalOffset (Double.zeroOffset written) step)
       target w + d)%float /\
  match Double.horizontalPosition step with
  | Some HorizontalPosition.Center =>
      Double.preClampLeft (Double.withHorizontalOffset (Some d) step) target w =
        (Double.anchoredLeft step target w + d - 150)%float /\
      Double.preClampLeft (Double.withHorizontalOffset (Double.zeroOffset written) step)
        target w =
        (Double.anchoredLeft step target w - 150)%float
  | _ =>
      Double.preClampLeft (Double.withHorizontalOffset (Some d) step) target w =
        (Double.preClampLeft (Double.withHorizontalOffset (Double.zeroOffset written) step)
           target w + d)%float
  end.
Proof.
  intros Htop Hleft.
  assert (Hzero : Double.orZero (Double.zeroOffset written) = 0%float)
    by (destruct written; reflexivity).
  unfold Double.preClampTop, Double.preClampLeft.
  change (Double.anchoredTop (Double.withVerticalOffset _ step) target w)
    with (Double.anchoredTop step target w).
  change (Double.anchoredLeft (Double.withHorizontalOffset _ step) target w)
    with (Double.anchoredLeft step target w).
  cbn [Double.withVerticalOffset Double.withHorizontalOffset
       Double.verticalOffset Double.horizontalOffset Double.horizontalPosition].
  rewrite Hzero. cbn [Double.orZero].
  rewrite (float_add_zero_r _ Htop), (float_add_zero_r _ Hleft).
  split; [reflexivity|].
  destruct (Double.horizontalPosition step) as [[]|]; cbn [Double.alignCenter];
    try reflexivity.
  split; reflexivity.
Qed.

Lemma double_offsets_added_after_anchor_witness :
  classify (Double.anchoredTop
              (Double.anchoredAt (Some VerticalPosition.Top) (Some HorizontalPosition.Left))
              Double.exampleTarget (Double.unscrolled 800 600)) <> NZero /\
  classify (Double.anchoredLeft
              (Double.anchoredAt (Some VerticalPosition.Top) (Some HorizontalPosition.Left))
              Double.exampleTarget (Double.unscrolled 800 600)) <> NZero /\
  Double.preClampTop
    (Double.withVerticalOffset (Some 15%float)
       (Double.anchoredAt (Some VerticalPosition.Top) (Some HorizontalPosition.Left)))
    Double.exampleTarget (Double.unscrolled 800 600) =
    (Double.preClampTop
       (Double.withVerticalOffset (Double.zeroOffset true)
          (Double.anchoredAt (Some VerticalPosition.Top) (Some HorizontalPosition.Left)))
       Double.exampleTarget (Double.unscrolled 800 600) + 15)%float /\
  Double.preClampLeft
    (Double.withHorizontalOffset (Some 15%float)
       (Double.anchoredAt (Some VerticalPosition.Top) (Some HorizontalPosition.Left)))
    Double.exampleTarget (Double.unscrolled 800 600) =
    (Double.preClampLeft
       (Double.withHorizontalOffset (Double.zeroOffset true)
          (Double.anchoredAt (Some VerticalPosition.Top) (Some HorizontalPosition.Left)))
       Double.exampleTarget (Double.unscrolled 800 600) + 15)%float.
Proof.
  assert (Ht : classify (Double.anchoredTop
              (Double.anchoredAt (Some VerticalPosition.Top) (Some HorizontalPosition.Left))
              Double.exampleTarget (Double.unscrolled 800 600)) <> NZero)
    by (vm_compute; discriminate).
  assert (Hl : classify (Double.anchoredLeft
              (Double.anchoredAt (Some VerticalPosition.Top) (Some HorizontalPosition.Left))
              Double.exampleTarget (Double.unscrolled 800 600)) <> NZero)
    by (vm_compute; discriminate).
  split; [exact Ht|]. split; [exact Hl|].
  exact (double_offsets_added_after_anchor
           (Double.anchoredAt (Some VerticalPosition.Top) (Some HorizontalPosition.Left))
           Double.exampleTarget (Double.unscrolled 800 600) 15%float true Ht Hl).
Defined.

(** On the spec's example box the additions are exact: an offset of 15
    moves each anchor's [top] from 80, 120 and 110 to 95, 135 and 125. *)
Lemma double_offset_15_example (h : option HorizontalPosition.t) :
  Double.preClampTop
    (Double.withVerticalOffset (Some 15%float)
       (Double.anchoredAt (Some VerticalPosition.Top) h))
    Double.exampleTarget (Double.unscrolled 800 600) = 95%float /\
  Double.preClampTop
    (Double.withVerticalOffset (Some 15%float)
       (Double.anchoredAt (Some VerticalPosition.Bottom) h))
    Double.exampleTarget (Double.unscrolled 800 600) = 135%float /\
  Double.preClampTop
    (Double.withVerticalOffset (Some 15%float)
       (Double.anchoredAt (Some VerticalPosition.Middle) h))
    Double.exampleTarget (Double.unscrolled 800 600) = 125%float.
Proof. repeat split; reflexivity. Qed.

(** The exact embedding is the double one wherever the doubles are
    exact: the two give the same values on the spec's anchor example. *)
Lemma double_anchor_example (v : option VerticalPosition.t) (h : option HorizontalPosition.t) :
  Double.p_top (Double.computePlacement (Double.anchoredAt (Some VerticalPosition.Top) h)
                  Double.exampleTarget (Double.unscrolled 800 600)) = 80%float /\
  Double.p_top (Double.computePlacement (Double.anchoredAt (Some VerticalPosition.Bottom) h)
                  Double.exampleTarget (Double.unscrolled 800 600)) = 120%float /\
  Double.p_top (Double.computePlacement (Double.anchoredAt (Some VerticalPosition.Middle) h)
                  Double.exampleTarget (Double.unscrolled 800 600)) = 110%float /\
  Double.p_left (Double.computePlacement (Double.anchoredAt v (Some HorizontalPosition.Left))
                   Double.exampleTarget (Double.unscrolled 800 600)) = 10%float /\
  Double.p_left (Double.computePlacement (Double.anchoredAt v (Some HorizontalPosition.Right))
                   Double.exampleTarget (Double.unscrolled 800 600)) = 90%float /\
  Double.p_left (Double.computePlacement (Double.anchoredAt v (Some HorizontalPosition.Center))
                   Double.exampleTarget (Double.unscrolled 800 600)) = 0%float.
Proof. repeat split; reflexivity. Qed.
